(** * Utho Object Storage client: a shallow embedding of [utho-client.ts]

    The client is a thin wrapper around an HTTP transport.  Every method
    builds one request, hands it to the transport and maps the answer.
    The embedding keeps that shape:

    - JavaScript values that flow through [any]-typed code are values of
      [JsValue]; strings are byte strings, numbers are integers;
    - header objects are finite maps from header names to values;
    - the transport (axios plus the remote service) and the header
      computation of the form-data package are section variables; its
      [append] is modelled with what it throws for values it refuses;
    - a method is a computation over the log of issued requests that
      either returns or throws. *)

From Stdlib Require Import String Ascii List ZArith Lia Bool.
From stdpp Require Import base option list strings gmap fin_maps.

Local Open Scope string_scope.
Local Open Scope list_scope.
Local Open Scope Z_scope.

(** ** JavaScript strings *)

Module JsString.

Definition slash : ascii := "/"%char.

(** [s.split('/')]: the pieces of [s] between the separators; never empty,
    [''.split('/')] is [['']]. *)
Fixpoint split (s : string) : list string :=
  match s with
  | EmptyString => [EmptyString]
  | String c s' =>
      if Ascii.eqb c slash then EmptyString :: split s'
      else match split s' with
           | [] => [String c EmptyString]
           | piece :: pieces => String c piece :: pieces
           end
  end.

(** [parts.join('/')]. *)
Fixpoint join (parts : list string) : string :=
  match parts with
  | [] => EmptyString
  | [piece] => piece
  | piece :: rest => piece +:+ String slash (join rest)
  end.

(** [parts.pop()]: the last element ([undefined] on an empty array) and
    the array that is left. *)
Fixpoint pop (parts : list string) : option string * list string :=
  match parts with
  | [] => (None, [])
  | [piece] => (Some piece, [])
  | piece :: rest => let '(last, rest') := pop rest in (last, piece :: rest')
  end.

(** Truthiness of a string: only [''] is falsy. *)
Definition truthy (s : string) : bool :=
  match s with EmptyString => false | String _ _ => true end.

(** Truthiness of an optional string property ([undefined] or a string). *)
Definition truthy_opt (o : option string) : bool :=
  match o with Some s => truthy s | None => false end.

(** [a || b] where [a] may be [undefined]. *)
Definition or_default (o : option string) (d : string) : string :=
  match o with
  | Some s => if truthy s then s else d
  | None => d
  end.

(** [s.lastIndexOf('/')], [-1] when there is none. *)
Fixpoint lastIndexOf (s : string) : Z :=
  match s with
  | EmptyString => -1
  | String c s' =>
      let i := lastIndexOf s' in
      if 0 <=? i then i + 1
      else if Ascii.eqb c slash then 0 else -1
  end.

(** [s.substring(n)] and [s.substring(0, n)] for [0 <= n]. *)
Fixpoint drop (n : nat) (s : string) : string :=
  match n, s with
  | O, _ => s
  | S n', String _ s' => drop n' s'
  | S _, EmptyString => EmptyString
  end.

Fixpoint take (n : nat) (s : string) : string :=
  match n, s with
  | O, _ => EmptyString
  | S n', String c s' => String c (take n' s')
  | S _, EmptyString => EmptyString
  end.

Definition substring_from (i : Z) (s : string) : string := drop (Z.to_nat i) s.
Definition substring_to (i : Z) (s : string) : string := take (Z.to_nat i) s.

(** A string holds a separator. *)
Fixpoint has_slash (s : string) : bool :=
  match s with
  | EmptyString => false
  | String c s' => Ascii.eqb c slash || has_slash s'
  end.

End JsString.

(** ** JavaScript values *)

Local Set Warnings "-register-all".

Inductive JsValue : Type :=
| JUndefined
| JNull
| JBool (b : bool)
| JNum (n : Z)
| JStr (s : string)
| JArr (items : list JsValue)
| JObj (fields : list (string * JsValue)).

Module Js.

(** Truthiness: [undefined], [null], [false], [0] and [''] are falsy. *)
Definition truthy (v : JsValue) : bool :=
  match v with
  | JUndefined | JNull => false
  | JBool b => b
  | JNum n => negb (n =? 0)
  | JStr s => JsString.truthy s
  | JArr _ | JObj _ => true
  end.

(** [a || b]. *)
Definition or (a b : JsValue) : JsValue := if truthy a then a else b.

Fixpoint lookup_field (k : string) (fields : list (string * JsValue)) : JsValue :=
  match fields with
  | [] => JUndefined
  | (k', v) :: rest => if String.eqb k k' then v else lookup_field k rest
  end.

(** [v?.k]: [undefined] on [undefined] and [null], the property otherwise.
    The properties read by the client ([data], [code], [message], [status],
    [headers], [url], ...) exist on objects only. *)
Definition opt_get (v : JsValue) (k : string) : JsValue :=
  match v with
  | JObj fields => lookup_field k fields
  | _ => JUndefined
  end.

(** [v.k]: as [v?.k], but a TypeError on [undefined] and [null]. *)
Definition get (v : JsValue) (k : string) : option JsValue :=
  match v with
  | JUndefined | JNull => None
  | _ => Some (opt_get v k)
  end.

(** [v === n] for a number literal [n]. *)
Definition strict_eq_num (v : JsValue) (n : Z) : bool :=
  match v with JNum m => m =? n | _ => false end.

(** [typeof v === 'string']. *)
Definition is_string (v : JsValue) : bool :=
  match v with JStr _ => true | _ => false end.

End Js.

(** ** Data model ([types.ts]) *)

(** [UthoConfig]: every property is optional. *)
Record UthoConfig : Type := {
  token : option string;
  accessKey : option string;
  secretKey : option string;
  timeout : option Z;
  endpoint : option string
}.

(** [UthoError], built by [handleError] from [any]-typed parts. *)
Record UthoError : Type := {
  code : JsValue;
  message : JsValue;
  statusCode : JsValue;
  requestId : JsValue
}.

Record CreateObjectStorageRequest : Type := {
  cos_dcslug : string;
  cos_billing : string;
  cos_size : string;
  cos_name : string
}.

Record CreateAccessKeyRequest : Type := { cak_accesskey : string }.

Inductive AccessKeyStatus : Type := status_enable | status_disable | status_remove.

Record ModifyAccessKeyRequest : Type := {
  mak_accesskey : string;
  mak_status : AccessKeyStatus
}.

Record CreateDirectoryRequest : Type := { cd_path : string }.

Definition DEFAULT_ENDPOINT : string := "https://api.utho.com/v2".
Definition DEFAULT_TIMEOUT : Z := 30000.

(** ** Upload contents and multipart bodies *)

Definition Buffer : Type := list Byte.byte.

(** [Buffer.from(s, 'utf8')]: strings are UTF-8 byte strings already. *)
Definition Buffer_from (s : string) : Buffer := list_byte_of_string s.

(** A browser [File]. *)
Record File : Type := {
  file_name : string;
  file_type : string;
  file_bytes : list Byte.byte
}.

(** What a caller can hand over as file content at run time.  The
    signatures say [File | Buffer] (and [string] for [putObject]); the
    checks in the code are [instanceof Buffer] and [typeof ... === 'string'].
    Next to buffers and [File] objects the type holds strings, numbers,
    arrays and plain objects. *)
Inductive Content : Type :=
| CBuffer (b : Buffer)
| CFile (f : File)
| CString (s : string)
| CNumber (n : Z)
| CArray (items : list JsValue)
| CObject (fields : list (string * JsValue)).

Definition instanceof_Buffer (c : Content) : bool :=
  match c with CBuffer _ => true | _ => false end.

Definition is_File (c : Content) : bool :=
  match c with CFile _ => true | _ => false end.

(** The options object of [formData.append(field, value, options)]. *)
Record AppendOptions : Type := {
  filename : string;
  contentType : string
}.

Inductive FormValue : Type :=
| FVContent (c : Content)
| FVString (s : string).

(** One [append] call. *)
Record FormPart : Type := {
  part_field : string;
  part_value : FormValue;
  part_options : option AppendOptions
}.

(** A [FormData] object is the sequence of its parts, in the order of the
    [append] calls. *)
Definition FormData : Type := list FormPart.

Definition FormData_new : FormData := [].

(** The parts of a body that carry a given field name. *)
Definition parts_named (field : string) (fd : FormData) : list FormPart :=
  filter (fun p => part_field p = field) fd.

(** ** Requests, responses and transport errors *)

Inductive Method : Type := GET | POST | DELETE.

Inductive Body : Type :=
| BodyNone
| BodyJson (v : JsValue)
| BodyForm (fd : FormData).

(** A call on the axios instance: verb, URL, body and the [headers] of the
    per-request config (absent for most calls). *)
Record Request : Type := {
  req_method : Method;
  req_url : string;
  req_body : Body;
  req_headers : option (gmap string string)
}.

Record AxiosResponse : Type := {
  resp_data : JsValue;
  resp_status : Z;
  resp_headers : JsValue
}.

(** The error object a failed call is rejected with.  [handleError] reads
    its [response], [code] and [message] properties. *)
Record AxiosError : Type := {
  err_response : JsValue;
  err_code : JsValue;
  err_message : JsValue
}.

Inductive AxiosResult : Type :=
| Resolved (r : AxiosResponse)
| Rejected (e : AxiosError).

(** The instance made by [axios.create]. *)
Record AxiosInstance : Type := {
  baseURL : string;
  inst_timeout : Z;
  inst_headers : gmap string string
}.

(** The [config] property after defaults are applied. *)
Record ResolvedConfig : Type := {
  cfg_endpoint : string;
  cfg_timeout : Z;
  cfg_token : option string;
  cfg_accessKey : option string;
  cfg_secretKey : option string
}.

(** The client object. *)
Record UthoObjectStorage : Type := {
  config : ResolvedConfig;
  httpClient : AxiosInstance
}.

(** What JavaScript code of the client can throw. *)
Inductive Thrown : Type :=
| ThrownError (msg : string)
| ThrownTypeError
| ThrownUtho (e : UthoError).

(** [error.statusCode] on a caught value. *)
Definition thrown_statusCode (e : Thrown) : JsValue :=
  match e with
  | ThrownUtho u => statusCode u
  | ThrownError _ | ThrownTypeError => JUndefined
  end.

(** ** Outcomes *)

Inductive Outcome (A : Type) : Type :=
| Returned (a : A)
| Threw (e : Thrown).

Arguments Returned {A} a.
Arguments Threw {A} e.

(** ** Appending to a multipart body *)

(** What [formData.append(field, value)] of the form-data package throws
    for a value.  Buffers, strings and numbers are taken; an array is
    refused with [Error('Arrays are not supported.')]; a [File] and a
    plain object are no streams, and wrapping them as one fails with a
    [TypeError]. *)
Definition append_error (v : FormValue) : option Thrown :=
  match v with
  | FVString _ => None
  | FVContent (CBuffer _) => None
  | FVContent (CString _) => None
  | FVContent (CNumber _) => None
  | FVContent (CArray _) => Some (ThrownError "Arrays are not supported.")
  | FVContent (CFile _) => Some ThrownTypeError
  | FVContent (CObject _) => Some ThrownTypeError
  end.

(** [formData.append(field, value, options)]: the part is added at the
    end, unless the value is refused. *)
Definition FormData_append (fd : FormData) (field : string) (v : FormValue)
    (opts : option AppendOptions) : Outcome FormData :=
  match append_error v with
  | Some e => Threw e
  | None => Returned (fd ++ [{| part_field := field; part_value := v;
                                part_options := opts |}])
  end.

(** ** Construction *)

Definition newline : string := String "010"%char EmptyString.
Definition dquote : string := String "034"%char EmptyString.

(** The message of the [Error] thrown on missing credentials. *)
Definition AUTH_REQUIRED : string :=
  "Authentication required. Please provide either:" +:+ newline +:+
  "1. Bearer token: { token: " +:+ dquote +:+ "your-bearer-token" +:+ dquote +:+ " }" +:+ newline +:+
  "2. Access keys: { accessKey: " +:+ dquote +:+ "your-access-key" +:+ dquote +:+
  ", secretKey: " +:+ dquote +:+ "your-secret-key" +:+ dquote +:+ " }".

(** The text of an optional string inside a template literal or a header
    value; only read on branches where the property is truthy. *)
Definition text (o : option string) : string := default EmptyString o.

(** The block
    [if (this.config.token) { headers['Authorization'] = `Bearer ${token}` }
     else if (this.config.accessKey && this.config.secretKey)
       { headers['X-Access-Key'] = accessKey; headers['X-Secret-Key'] = secretKey }]
    that the constructor and [uploadFile] both run on a header object. *)
Definition add_auth (cfg : ResolvedConfig) (headers : gmap string string)
    : gmap string string :=
  if JsString.truthy_opt (cfg_token cfg) then
    <["Authorization" := "Bearer " +:+ text (cfg_token cfg)]> headers
  else if JsString.truthy_opt (cfg_accessKey cfg) && JsString.truthy_opt (cfg_secretKey cfg) then
    <["X-Secret-Key" := text (cfg_secretKey cfg)]>
      (<["X-Access-Key" := text (cfg_accessKey cfg)]> headers)
  else headers.

(** [config.timeout || 30000]: [undefined] and [0] give the default. *)
Definition timeout_or_default (o : option Z) : Z :=
  match o with
  | Some t => if t =? 0 then DEFAULT_TIMEOUT else t
  | None => DEFAULT_TIMEOUT
  end.

Definition resolve (config : UthoConfig) : ResolvedConfig :=
  {| cfg_endpoint := JsString.or_default (endpoint config) DEFAULT_ENDPOINT;
     cfg_timeout := timeout_or_default (timeout config);
     cfg_token := token config;
     cfg_accessKey := accessKey config;
     cfg_secretKey := secretKey config |}.

(** The header object the constructor starts from. *)
Definition base_headers : gmap string string :=
  <["User-Agent" := "@utho/object-storage/1.0.0"]>
    (<["Content-Type" := "application/json"]> ∅).

(** [new UthoObjectStorage(config)]. *)
Definition constructor (config : UthoConfig) : Outcome UthoObjectStorage :=
  if negb (JsString.truthy_opt (token config)) &&
     (negb (JsString.truthy_opt (accessKey config)) ||
      negb (JsString.truthy_opt (secretKey config)))
  then Threw (ThrownError AUTH_REQUIRED)
  else
    let this_config := resolve config in
    let authHeaders := add_auth this_config base_headers in
    Returned
      {| config := this_config;
         httpClient := {| baseURL := cfg_endpoint this_config;
                          inst_timeout := cfg_timeout this_config;
                          inst_headers := authHeaders |} |}.

(** What the constructor writes with [console.warn]: two lines when a
    custom endpoint is in use, nothing otherwise (and nothing when it
    throws, which happens first). *)
Definition constructor_warnings (config : UthoConfig) : list string :=
  match constructor config with
  | Threw _ => []
  | Returned _ =>
      if JsString.truthy_opt (endpoint config) &&
         negb (String.eqb (text (endpoint config)) DEFAULT_ENDPOINT)
      then [ "⚠️  Using custom endpoint: " +:+ text (endpoint config);
             "💡 This should only be used for testing or custom deployments" ]
      else []
  end.

(** [getConfiguration()]. *)
Inductive AuthType : Type := bearer | accesskey.

Record Configuration : Type := {
  conf_endpoint : string;
  conf_timeout : Z;
  authType : AuthType;
  hasAuth : bool
}.

Definition getConfiguration (this : UthoObjectStorage) : Configuration :=
  {| conf_endpoint := cfg_endpoint (config this);
     conf_timeout := cfg_timeout (config this);
     authType := if JsString.truthy_opt (cfg_token (config this)) then bearer else accesskey;
     hasAuth := JsString.truthy_opt (cfg_token (config this)) ||
                (JsString.truthy_opt (cfg_accessKey (config this)) &&
                 JsString.truthy_opt (cfg_secretKey (config this))) |}.

(** ** Error normalization *)

(** [handleError(error)]. *)
Definition handleError (error : AxiosError) : UthoError :=
  let response := err_response error in
  {| code := Js.or (Js.or (Js.opt_get (Js.opt_get response "data") "code")
                          (err_code error))
                   (JStr "UnknownError");
     message := Js.or (Js.or (Js.opt_get (Js.opt_get response "data") "message")
                             (err_message error))
                      (JStr "An unknown error occurred");
     statusCode := Js.or (Js.opt_get response "status") (JNum 500);
     requestId := Js.opt_get (Js.opt_get response "headers") "x-request-id" |}.

(** ** Calls on the transport *)

(** A method runs against the log of the requests issued so far; it
    returns or throws, and leaves the log extended by its own requests. *)
Definition Log : Type := list Request.

Definition Client (A : Type) : Type := Log -> Outcome A * Log.

Definition throw {A : Type} (e : Thrown) : Client A := fun log => (Threw e, log).

#[export] Instance client_ret : MRet Client :=
  fun A (a : A) log => (Returned a, log).

#[export] Instance client_bind : MBind Client :=
  fun A B (k : A -> Client B) (m : Client A) log =>
    match m log with
    | (Returned a, log') => k a log'
    | (Threw e, log') => (Threw e, log')
    end.

(** [try { m } catch (error) { handler(error) }]. *)
Definition try_catch {A : Type} (m : Client A) (handler : Thrown -> Client A)
    : Client A :=
  fun log =>
    match m log with
    | (Returned a, log') => (Returned a, log')
    | (Threw e, log') => handler e log'
    end.

(** The requests a computation adds when run from [log]. *)
Definition issued {A : Type} (m : Client A) (log : Log) : list Request :=
  drop (length log) (snd (m log)).

Definition outcome {A : Type} (m : Client A) (log : Log) : Outcome A :=
  fst (m log).

(** ** JSON bodies of the request records *)

Definition json_of_status (st : AccessKeyStatus) : JsValue :=
  match st with
  | status_enable => JStr "enable"
  | status_disable => JStr "disable"
  | status_remove => JStr "remove"
  end.

Definition json_of_CreateObjectStorageRequest (r : CreateObjectStorageRequest) : JsValue :=
  JObj [("dcslug", JStr (cos_dcslug r)); ("billing", JStr (cos_billing r));
        ("size", JStr (cos_size r)); ("name", JStr (cos_name r))].

Definition json_of_CreateAccessKeyRequest (r : CreateAccessKeyRequest) : JsValue :=
  JObj [("accesskey", JStr (cak_accesskey r))].

Definition json_of_ModifyAccessKeyRequest (r : ModifyAccessKeyRequest) : JsValue :=
  JObj [("accesskey", JStr (mak_accesskey r)); ("status", json_of_status (mak_status r))].

Definition json_of_CreateDirectoryRequest (r : CreateDirectoryRequest) : JsValue :=
  JObj [("path", JStr (cd_path r))].

(** ** The splitting of an upload path *)

(** The three lines
    [const pathParts = path.split('/');
     const filename = pathParts.pop() || 'file';
     const directoryPath = pathParts.join('/');]
    as the pair [(filename, directoryPath)]. *)
Definition split_upload_path (path : string) : string * string :=
  let pathParts := JsString.split path in
  let '(popped, pathParts) := JsString.pop pathParts in
  let filename := JsString.or_default popped "file" in
  let directoryPath := JsString.join pathParts in
  (filename, directoryPath).

(** ** Methods of the client *)

Section Methods.

(** The transport: what the axios instance answers to a request, given
    the requests issued before it. *)
Variable remote : AxiosInstance -> Log -> Request -> AxiosResult.

(** [formData.getHeaders()] of the form-data package: the multipart
    content type with the boundary chosen for the body. *)
Variable getHeaders : FormData -> gmap string string.

(** [JSON.stringify]. *)
Variable JSON_stringify : JsValue -> string.

(** One call on [this.httpClient].  The response interceptor passes a
    response on and throws [handleError(error)] for a rejection. *)
Definition request (this : UthoObjectStorage) (req : Request) : Client AxiosResponse :=
  fun log =>
    match remote (httpClient this) log req with
    | Resolved response => (Returned response, log ++ [req])
    | Rejected error => (Threw (ThrownUtho (handleError error)), log ++ [req])
    end.

Definition http_get (this : UthoObjectStorage) (url : string) : Client AxiosResponse :=
  request this {| req_method := GET; req_url := url;
                  req_body := BodyNone; req_headers := None |}.

Definition http_delete (this : UthoObjectStorage) (url : string) : Client AxiosResponse :=
  request this {| req_method := DELETE; req_url := url;
                  req_body := BodyNone; req_headers := None |}.

Definition http_post (this : UthoObjectStorage) (url : string) (body : Body)
    (headers : option (gmap string string)) : Client AxiosResponse :=
  request this {| req_method := POST; req_url := url;
                  req_body := body; req_headers := headers |}.

(** [response.data.data || response.data]. *)
Definition data_or_self (response : AxiosResponse) : Client JsValue :=
  match Js.get (resp_data response) "data" with
  | None => throw ThrownTypeError
  | Some inner => mret (Js.or inner (resp_data response))
  end.

Definition listObjectStorages (this : UthoObjectStorage) (dcslug : string) : Client JsValue :=
  response ← http_get this ("/objectstorage/" +:+ dcslug +:+ "/bucket/");
  data_or_self response.

Definition createObjectStorage (this : UthoObjectStorage)
    (req : CreateObjectStorageRequest) : Client JsValue :=
  response ← http_post this "/objectstorage/bucket/create/"
               (BodyJson (json_of_CreateObjectStorageRequest req)) None;
  data_or_self response.

Definition getObjectStorageDetails (this : UthoObjectStorage) (dcslug name : string)
    : Client JsValue :=
  response ← http_get this ("/objectstorage/" +:+ dcslug +:+ "/bucket/" +:+ name +:+ "/");
  data_or_self response.

Definition deleteObjectStorage (this : UthoObjectStorage) (dcslug name : string)
    : Client unit :=
  http_delete this ("/objectstorage/" +:+ dcslug +:+ "/bucket/" +:+ name +:+ "/delete/")
    ≫= λ _, mret tt.

Definition getObjectStoragePlans (this : UthoObjectStorage) : Client JsValue :=
  response ← http_get this "/pricing/objectstorage/";
  data_or_self response.

Definition listAccessKeys (this : UthoObjectStorage) (dcslug : string) : Client JsValue :=
  response ← http_get this ("/objectstorage/" +:+ dcslug +:+ "/accesskeys");
  data_or_self response.

Definition createAccessKey (this : UthoObjectStorage) (dcslug : string)
    (req : CreateAccessKeyRequest) : Client JsValue :=
  response ← http_post this ("/objectstorage/" +:+ dcslug +:+ "/accesskey/create")
               (BodyJson (json_of_CreateAccessKeyRequest req)) None;
  data_or_self response.

Definition modifyAccessKey (this : UthoObjectStorage) (dcslug name : string)
    (req : ModifyAccessKeyRequest) : Client unit :=
  http_post this ("/objectstorage/" +:+ dcslug +:+ "/accesskey/" +:+ name +:+ "/status")
    (BodyJson (json_of_ModifyAccessKeyRequest req)) None
    ≫= λ _, mret tt.

Definition updateAccessPolicy (this : UthoObjectStorage) (dcslug name policy : string)
    : Client unit :=
  http_post this
    ("/objectstorage/" +:+ dcslug +:+ "/bucket/" +:+ name +:+ "/policy/" +:+ policy +:+ "/")
    (BodyJson (JObj [("policy", JStr policy)])) None
    ≫= λ _, mret tt.

Definition updatePermission (this : UthoObjectStorage)
    (dcslug name permission accessKey : string) : Client unit :=
  http_post this
    ("/objectstorage/" +:+ dcslug +:+ "/bucket/" +:+ name +:+ "/permission/" +:+ permission
       +:+ "/accesskey/" +:+ accessKey)
    (BodyJson (JObj [("selected_permission", JStr permission);
                     ("selected_key", JStr accessKey)])) None
    ≫= λ _, mret tt.

Definition listObjects (this : UthoObjectStorage) (dcslug name : string) : Client JsValue :=
  response ← http_get this ("/objectstorage/" +:+ dcslug +:+ "/bucket/" +:+ name +:+ "/objects/");
  match Js.get (resp_data response) "objects" with
  | None => throw ThrownTypeError
  | Some objects =>
      if Js.truthy objects then mret objects else data_or_self response
  end.

Definition createDirectory (this : UthoObjectStorage) (dcslug name : string)
    (req : CreateDirectoryRequest) : Client unit :=
  http_post this ("/objectstorage/" +:+ dcslug +:+ "/bucket/" +:+ name +:+ "/createdirectory/")
    (BodyJson (json_of_CreateDirectoryRequest req)) None
    ≫= λ _, mret tt.

(** The body [uploadFile] builds: the [file] part, then the [path] part
    when the directory path is truthy; an [append] that throws ends the
    building. *)
Definition upload_form (file : Content) (path : string) : Outcome FormData :=
  let formData := FormData_new in
  let '(filename, directoryPath) := split_upload_path path in
  match
    (if instanceof_Buffer file then
       FormData_append formData "file" (FVContent file)
         (Some {| filename := filename; contentType := "application/octet-stream" |})
     else
       FormData_append formData "file" (FVContent file) None)
  with
  | Threw e => Threw e
  | Returned formData =>
      if JsString.truthy directoryPath then
        FormData_append formData "path" (FVString directoryPath) None
      else Returned formData
  end.

(** The [headers] of the upload call:
    [{ ...authHeaders, ...formData.getHeaders() }], where [authHeaders]
    starts empty; in a spread the later object wins on a shared key. *)
Definition upload_headers (this : UthoObjectStorage) (formData : FormData)
    : gmap string string :=
  let authHeaders := add_auth (config this) ∅ in
  getHeaders formData ∪ authHeaders.

Definition upload_url (dcslug name : string) : string :=
  "/objectstorage/" +:+ dcslug +:+ "/bucket/" +:+ name +:+ "/upload/".

Definition uploadFile (this : UthoObjectStorage) (dcslug name : string)
    (file : Content) (path : string) : Client unit :=
  match upload_form file path with
  | Threw e => throw e
  | Returned formData =>
      http_post this (upload_url dcslug name) (BodyForm formData)
        (Some (upload_headers this formData))
        ≫= λ _, mret tt
  end.

Definition download_url (dcslug name filename actualExpiry : string) : string :=
  "/objectstorage/" +:+ dcslug +:+ "/bucket/" +:+ name +:+ "/download?path=" +:+ filename
    +:+ "&expire=" +:+ actualExpiry.

(** [expiryTime === 'never' ? '1y' : expiryTime]. *)
Definition actual_expiry (expiryTime : string) : string :=
  if String.eqb expiryTime "never" then "1y" else expiryTime.

Definition getSharableUrl (this : UthoObjectStorage) (dcslug name filename : string)
    (expiryTime : string) : Client JsValue :=
  let actualExpiry := actual_expiry expiryTime in
  response ← http_get this (download_url dcslug name filename actualExpiry);
  let data := resp_data response in
  if Js.is_string data then mret data
  else
    match Js.get data "url" with
    | None => throw ThrownTypeError
    | Some url =>
        if Js.truthy url then mret url
        else if Js.truthy (Js.opt_get data "download_url")
             then mret (Js.opt_get data "download_url")
             else mret (JStr (JSON_stringify data))
    end.

Definition deleteFile (this : UthoObjectStorage) (dcslug name filename : string)
    : Client unit :=
  http_delete this
    ("/objectstorage/" +:+ dcslug +:+ "/bucket/" +:+ name +:+ "/delete/object?path="
       +:+ filename +:+ "/")
    ≫= λ _, mret tt.

Definition deleteDirectory (this : UthoObjectStorage) (dcslug name directoryName : string)
    : Client unit :=
  http_delete this
    ("/objectstorage/" +:+ dcslug +:+ "/bucket/" +:+ name +:+ "/delete/object?path="
       +:+ directoryName)
    ≫= λ _, mret tt.

Definition bucketExists (this : UthoObjectStorage) (dcslug name : string) : Client bool :=
  try_catch
    (getObjectStorageDetails this dcslug name ≫= λ _, mret true)
    (fun error =>
       if Js.strict_eq_num (thrown_statusCode error) 404 then mret false
       else throw error).

(** [putObject(dcslug, name, filename, content, path = '')]; [None] is
    the omitted (or [undefined]) last argument. *)
Definition putObject (this : UthoObjectStorage) (dcslug name filename : string)
    (content : Content) (path : option string) : Client unit :=
  let path := default EmptyString path in
  let filePath :=
    if JsString.truthy path then path +:+ "/" +:+ filename else filename in
  let fileToUpload :=
    match content with
    | CString s => CBuffer (Buffer_from s)
    | _ => content
    end in
  uploadFile this dcslug name fileToUpload filePath.

(** [getObject(dcslug, name, filename, expiryTime = '1h')]. *)
Definition getObject (this : UthoObjectStorage) (dcslug name filename : string)
    (expiryTime : option string) : Client JsValue :=
  getSharableUrl this dcslug name filename (default "1h" expiryTime).

End Methods.

(** ** The path split in the words of the specification *)

(** "Locate the last [/] in the path.  Everything after it is the object
    (file) name; everything before it is the directory path.  If no [/]
    exists, directory path is the empty string."  The test suite computes
    the two with [lastIndexOf] and [substring] in the same way. *)
Definition name_after_last_slash (path : string) : string :=
  let lastSlash := JsString.lastIndexOf path in
  if 0 <=? lastSlash then JsString.substring_from (lastSlash + 1) path else path.

Definition directory_before_last_slash (path : string) : string :=
  let lastSlash := JsString.lastIndexOf path in
  if 0 <=? lastSlash then JsString.substring_to lastSlash path else EmptyString.

(** The [path] part of a multipart body that carries [directoryPath]. *)
Definition path_part (directoryPath : string) : FormPart :=
  {| part_field := "path"; part_value := FVString directoryPath; part_options := None |}.

(** The [file] part for a buffer, with its file name and content type. *)
Definition buffer_file_part (file : Content) (filename : string) : FormPart :=
  {| part_field := "file"; part_value := FVContent file;
     part_options := Some {| filename := filename;
                             contentType := "application/octet-stream" |} |}.

(** The [file] part for any other content: no options. *)
Definition plain_file_part (file : Content) : FormPart :=
  {| part_field := "file"; part_value := FVContent file; part_options := None |}.

(** The body of an upload whose content is taken: the [file] part, with
    options for a buffer and without for anything else, then the [path]
    part when the directory path is not empty. *)
Definition upload_body (file : Content) (path : string) : FormData :=
  (if instanceof_Buffer file
   then buffer_file_part file (fst (split_upload_path path))
   else plain_file_part file)
  :: (if JsString.truthy (snd (split_upload_path path))
      then [path_part (snd (split_upload_path path))] else []).

(** The request [uploadFile] hands to the transport for a body. *)
Definition upload_request (getHeaders : FormData -> gmap string string)
    (this : UthoObjectStorage) (dcslug name : string) (body : FormData) : Request :=
  {| req_method := POST;
     req_url := upload_url dcslug name;
     req_body := BodyForm body;
     req_headers := Some (upload_headers getHeaders this body) |}.

(** What the interceptor pair turns the transport's answer into. *)
Definition intercepted (answer : AxiosResult) : Outcome AxiosResponse :=
  match answer with
  | Resolved response => Returned response
  | Rejected error => Threw (ThrownUtho (handleError error))
  end.

(** A credential is supplied when the property holds a string that is not
    empty: the code tests the properties for truthiness, and [undefined]
    and [''] both count as absent. *)
Definition supplied (o : option string) : Prop :=
  exists s : string, o = Some s /\ s <> EmptyString.

(** A configuration with both credential sets. *)
Definition both_config : UthoConfig :=
  {| token := Some "secret-token"; accessKey := Some "AK"; secretKey := Some "SK";
     timeout := Some 60000; endpoint := Some "https://custom.api.com" |}.

(** ** The calls of the client, one by one *)

(** A method call with its arguments; [bucketExists], which catches, is
    treated apart. *)
Inductive Call : Type :=
| call_listObjectStorages (dcslug : string)
| call_createObjectStorage (req : CreateObjectStorageRequest)
| call_getObjectStorageDetails (dcslug name : string)
| call_deleteObjectStorage (dcslug name : string)
| call_getObjectStoragePlans
| call_listAccessKeys (dcslug : string)
| call_createAccessKey (dcslug : string) (req : CreateAccessKeyRequest)
| call_modifyAccessKey (dcslug name : string) (req : ModifyAccessKeyRequest)
| call_updateAccessPolicy (dcslug name policy : string)
| call_updatePermission (dcslug name permission accessKey : string)
| call_listObjects (dcslug name : string)
| call_createDirectory (dcslug name : string) (req : CreateDirectoryRequest)
| call_uploadFile (dcslug name : string) (file : Content) (path : string)
| call_getSharableUrl (dcslug name filename expiryTime : string)
| call_deleteFile (dcslug name filename : string)
| call_deleteDirectory (dcslug name directoryName : string)
| call_putObject (dcslug name filename : string) (content : Content) (path : option string)
| call_getObject (dcslug name filename : string) (expiryTime : option string).

(** A computation with its result dropped. *)
Definition discard {A : Type} (m : Client A) : Client unit := m ≫= λ _, mret tt.

Section Run.
Variable remote : AxiosInstance -> Log -> Request -> AxiosResult.
Variable getHeaders : FormData -> gmap string string.
Variable JSON_stringify : JsValue -> string.

(** Running a call for its effect and its failure. *)
Definition run (this : UthoObjectStorage) (c : Call) : Client unit :=
  match c with
  | call_listObjectStorages dcslug => discard (listObjectStorages remote this dcslug)
  | call_createObjectStorage req => discard (createObjectStorage remote this req)
  | call_getObjectStorageDetails dcslug name =>
      discard (getObjectStorageDetails remote this dcslug name)
  | call_deleteObjectStorage dcslug name => deleteObjectStorage remote this dcslug name
  | call_getObjectStoragePlans => discard (getObjectStoragePlans remote this)
  | call_listAccessKeys dcslug => discard (listAccessKeys remote this dcslug)
  | call_createAccessKey dcslug req => discard (createAccessKey remote this dcslug req)
  | call_modifyAccessKey dcslug name req => modifyAccessKey remote this dcslug name req
  | call_updateAccessPolicy dcslug name policy =>
      updateAccessPolicy remote this dcslug name policy
  | call_updatePermission dcslug name permission accessKey =>
      updatePermission remote this dcslug name permission accessKey
  | call_listObjects dcslug name => discard (listObjects remote this dcslug name)
  | call_createDirectory dcslug name req => createDirectory remote this dcslug name req
  | call_uploadFile dcslug name file path =>
      uploadFile remote getHeaders this dcslug name file path
  | call_getSharableUrl dcslug name filename expiryTime =>
      discard (getSharableUrl remote JSON_stringify this dcslug name filename expiryTime)
  | call_deleteFile dcslug name filename => deleteFile remote this dcslug name filename
  | call_deleteDirectory dcslug name directoryName =>
      deleteDirectory remote this dcslug name directoryName
  | call_putObject dcslug name filename content path =>
      putObject remote getHeaders this dcslug name filename content path
  | call_getObject dcslug name filename expiryTime =>
      discard (getObject remote JSON_stringify this dcslug name filename expiryTime)
  end.

(** A computation issues exactly one request and, when it throws, throws
    the normalized error of that request's rejection, or a [TypeError]
    met while reading the answer of a request that went through. *)
Definition surfaces_normalized {A : Type} (this : UthoObjectStorage) (m : Client A)
    : Prop :=
  forall log : Log,
  exists (req : Request) (o : Outcome A),
    m log = (o, log ++ [req]) /\
    (forall error, remote (httpClient this) log req = Rejected error ->
                   o = Threw (ThrownUtho (handleError error))) /\
    (forall e, o = Threw e ->
               (exists error, remote (httpClient this) log req = Rejected error /\
                              e = ThrownUtho (handleError error)) \/
               (exists response, remote (httpClient this) log req = Resolved response /\
                                 e = ThrownTypeError)).

End Run.

(** What follows a call only reads the response: it leaves the log alone
    and throws nothing but a [TypeError]. *)
Definition reads_only {A : Type} (k : AxiosResponse -> Client A) : Prop :=
  forall (response : AxiosResponse) (log : Log),
  exists o : Outcome A,
    k response log = (o, log) /\ (forall e, o = Threw e -> e = ThrownTypeError).

(** ** Sample collaborators

    Concrete values for the section variables, to run the methods on. *)

(** A Bearer-token client and a key-pair client. *)
Definition bearer_config : UthoConfig :=
  {| token := Some "secret-token"; accessKey := None; secretKey := None;
     timeout := None; endpoint := None |}.

Definition keypair_config : UthoConfig :=
  {| token := None; accessKey := Some "AK"; secretKey := Some "SK";
     timeout := None; endpoint := None |}.

Definition client_of (config : UthoConfig) : UthoObjectStorage :=
  {| config := resolve config;
     httpClient := {| baseURL := cfg_endpoint (resolve config);
                      inst_timeout := cfg_timeout (resolve config);
                      inst_headers := add_auth (resolve config) base_headers |} |}.

(** A body's headers as the form-data package reports them, for a fixed
    boundary. *)
Definition sample_getHeaders (fd : FormData) : gmap string string :=
  {[ "content-type" := "multipart/form-data; boundary=----sample" ]}.

Definition sample_stringify (v : JsValue) : string := "{}".

(** A service that answers every request with [200] and an empty object
    under [data]. *)
Definition ok_response : AxiosResponse :=
  {| resp_data := JObj [("data", JObj [])]; resp_status := 200; resp_headers := JObj [] |}.

Definition remote_ok (inst : AxiosInstance) (log : Log) (req : Request) : AxiosResult :=
  Resolved ok_response.

(** A service that rejects every request with the given HTTP status and
    an error body. *)
Definition status_error (status : Z) : AxiosError :=
  {| err_response := JObj [("status", JNum status);
                           ("data", JObj [("code", JStr "NoSuchBucket");
                                          ("message", JStr "bucket not found")]);
                           ("headers", JObj [("x-request-id", JStr "req-1")])];
     err_code := JStr "ERR_BAD_REQUEST";
     err_message := JStr "Request failed" |}.

Definition remote_status (status : Z) (inst : AxiosInstance) (log : Log) (req : Request)
    : AxiosResult :=
  Rejected (status_error status).

(** A transport failure without any response (timeout, refused
    connection). *)
Definition network_error : AxiosError :=
  {| err_response := JUndefined;
     err_code := JStr "ECONNABORTED";
     err_message := JStr "timeout of 30000ms exceeded" |}.

Definition remote_down (inst : AxiosInstance) (log : Log) (req : Request) : AxiosResult :=
  Rejected network_error.

(** ** Reading the answer of a call *)

(** A method that answers with [response.data.data || response.data]
    accepts both shapes of a body: from an envelope with a truthy [data]
    it returns the payload, any other body that is not [null] or
    [undefined] it returns whole, and on [null] and [undefined] it throws
    a [TypeError]; in every case after the one request [req]. *)
Definition unwraps_envelope (remote : AxiosInstance -> Log -> Request -> AxiosResult)
    (this : UthoObjectStorage) (m : Client JsValue) (req : Request) : Prop :=
  forall (log : Log) (response : AxiosResponse),
    remote (httpClient this) log req = Resolved response ->
    let body := resp_data response in
    (Js.truthy (Js.opt_get body "data") = true ->
       m log = (Returned (Js.opt_get body "data"), log ++ [req])) /\
    (Js.truthy (Js.opt_get body "data") = false ->
       body <> JNull -> body <> JUndefined ->
       m log = (Returned body, log ++ [req])) /\
    (body = JNull \/ body = JUndefined ->
       m log = (Threw ThrownTypeError, log ++ [req])).

(** [null] or [undefined]. *)
Definition nullish (v : JsValue) : bool :=
  match v with JUndefined | JNull => true | _ => false end.

(** A request without body and without headers of its own. *)
Definition bare_request (method : Method) (url : string) : Request :=
  {| req_method := method; req_url := url; req_body := BodyNone; req_headers := None |}.

(** A service that answers every request with [200] and the given body. *)
Definition remote_body (body : JsValue) (inst : AxiosInstance) (log : Log) (req : Request)
    : AxiosResult :=
  Resolved {| resp_data := body; resp_status := 200; resp_headers := JObj [] |}.

(** The uploads that end in [formData.append]: what [uploadFile] and
    [putObject] throw before any request, when the content is refused. *)
Definition refused_upload (c : Call) : option Thrown :=
  match c with
  | call_uploadFile _ _ file _ => append_error (FVContent file)
  | call_putObject _ _ _ content _ =>
      match content with
      | CString _ => None
      | _ => append_error (FVContent content)
      end
  | _ => None
  end.

(** The calls of the methods declared [Promise<void>]: they await the
    request and read nothing of the response. *)
Definition returns_nothing (c : Call) : bool :=
  match c with
  | call_deleteObjectStorage _ _ | call_modifyAccessKey _ _ _
  | call_updateAccessPolicy _ _ _ | call_updatePermission _ _ _ _
  | call_createDirectory _ _ _ | call_uploadFile _ _ _ _
  | call_deleteFile _ _ _ | call_deleteDirectory _ _ _
  | call_putObject _ _ _ _ _ => true
  | _ => false
  end.

(** * Properties *)

(** ** Strings: [split], [pop] and [join] *)

Module JsStringFacts.
Import JsString.

Lemma append_cons (c : ascii) (s t : string) :
  String c s +:+ t = String c (s +:+ t).
Proof. reflexivity. Qed.

Lemma append_empty_l (t : string) : EmptyString +:+ t = t.
Proof. reflexivity. Qed.

Lemma append_empty_r (s : string) : s +:+ EmptyString = s.
Proof. induction s as [|c s IH]; [reflexivity|]. rewrite append_cons, IH. reflexivity. Qed.

Lemma split_nonempty (s : string) : split s <> [].
Proof.
  induction s as [|c s IH]; simpl; [discriminate|].
  destruct (Ascii.eqb c slash); [discriminate|].
  destruct (split s); discriminate.
Qed.

(** A string without a separator is a single piece. *)
Lemma split_no_slash (s : string) : has_slash s = false -> split s = [s].
Proof.
  induction s as [|c s IH]; simpl; [reflexivity|].
  intros H. apply orb_false_elim in H as [Hc Hs].
  rewrite Hc, (IH Hs). reflexivity.
Qed.

(** Splitting at the last separator: the pieces of the front, then
    the tail. *)
Lemma split_app_slash (d f : string) :
  has_slash f = false ->
  split (d +:+ String slash f) = split d ++ [f].
Proof.
  intros Hf. induction d as [|c d IH].
  - rewrite append_empty_l. simpl. rewrite (split_no_slash f Hf). reflexivity.
  - rewrite append_cons. simpl. destruct (Ascii.eqb c slash).
    + rewrite IH. reflexivity.
    + rewrite IH. destruct (split d) as [|p ps] eqn:E.
      * exfalso. exact (split_nonempty d E).
      * reflexivity.
Qed.

Lemma pop_snoc (l : list string) (x : string) : pop (l ++ [x]) = (Some x, l).
Proof.
  induction l as [|y l IH]; [reflexivity|].
  change ((y :: l) ++ [x]) with (y :: (l ++ [x])).
  cbn [pop]. rewrite IH.
  destruct (l ++ [x]) eqn:E; [|reflexivity].
  destruct l; discriminate.
Qed.

Lemma join_cons (x : string) (l : list string) :
  l <> [] -> join (x :: l) = x +:+ String slash (join l).
Proof. destruct l; [congruence|reflexivity]. Qed.

(** [join] undoes [split]. *)
Lemma join_split (s : string) : join (split s) = s.
Proof.
  induction s as [|c s IH]; [reflexivity|].
  pose proof (split_nonempty s) as Hne.
  simpl. destruct (Ascii.eqb c slash) eqn:Ec.
  - apply Ascii.eqb_eq in Ec. subst c.
    rewrite (join_cons _ _ Hne), IH. reflexivity.
  - destruct (split s) as [|p ps] eqn:E; [congruence|].
    destruct ps as [|q qs].
    + simpl in *. rewrite IH. reflexivity.
    + rewrite join_cons by discriminate.
      rewrite join_cons in IH by discriminate.
      rewrite append_cons, IH. reflexivity.
Qed.

(** [lastIndexOf] finds the separator that splits the string into a
    front and a tail free of separators, or reports [-1]. *)
Lemma lastIndexOf_spec (s : string) :
  (has_slash s = false /\ lastIndexOf s = -1) \/
  (has_slash s = true /\ 0 <= lastIndexOf s /\
   s = substring_to (lastIndexOf s) s
         +:+ String slash (substring_from (lastIndexOf s + 1) s) /\
   has_slash (substring_from (lastIndexOf s + 1) s) = false).
Proof.
  induction s as [|c s IH]; [left; split; reflexivity|].
  cbn [lastIndexOf has_slash].
  destruct IH as [[Hs Hi]|(Hs & Hi & Hdec & Htail)].
  - rewrite Hs, Hi. change (0 <=? -1) with false. cbv iota.
    destruct (Ascii.eqb c slash) eqn:Ec.
    + right. apply Ascii.eqb_eq in Ec. subst c.
      repeat split; [lia|exact Hs].
    + left. split; reflexivity.
  - right. rewrite Hs, orb_true_r.
    assert ((0 <=? lastIndexOf s) = true) as -> by (apply Z.leb_le; exact Hi).
    cbv zeta iota.
    unfold substring_to, substring_from in *.
    replace (Z.to_nat (lastIndexOf s + 1)) with (S (Z.to_nat (lastIndexOf s))) by lia.
    replace (Z.to_nat (lastIndexOf s + 1 + 1)) with (S (S (Z.to_nat (lastIndexOf s)))) by lia.
    replace (Z.to_nat (lastIndexOf s + 1)) with (S (Z.to_nat (lastIndexOf s))) in Hdec, Htail by lia.
    cbn [take drop].
    repeat split; [lia| |exact Htail].
    rewrite append_cons. f_equal. exact Hdec.
Qed.

End JsStringFacts.

(** ** The upload path builder *)

Section UploadPath.
Import JsString JsStringFacts.

(** The split at a known last separator. *)
Lemma split_upload_path_at (d f : string) :
  has_slash f = false ->
  split_upload_path (d +:+ String slash f) = (or_default (Some f) "file", d).
Proof.
  intros Hf. unfold split_upload_path.
  rewrite (split_app_slash d f Hf), pop_snoc, join_split. reflexivity.
Qed.

(** The split of a path without a separator. *)
Lemma split_upload_path_flat (p : string) :
  has_slash p = false ->
  split_upload_path p = (or_default (Some p) "file", EmptyString).
Proof.
  intros Hp. unfold split_upload_path.
  rewrite (split_no_slash p Hp). reflexivity.
Qed.

(** The code's split against the specification's: same directory, and
    the same name up to the substitution of ['file'] for an empty one. *)
Lemma split_upload_path_spec (path : string) :
  split_upload_path path =
    (or_default (Some (name_after_last_slash path)) "file",
     directory_before_last_slash path).
Proof.
  unfold name_after_last_slash, directory_before_last_slash.
  destruct (lastIndexOf_spec path) as [[Hs Hi]|(Hs & Hi & Hdec & Htail)].
  - rewrite Hi. change (0 <=? -1) with false. cbv zeta iota.
    exact (split_upload_path_flat path Hs).
  - assert ((0 <=? lastIndexOf path) = true) as -> by (apply Z.leb_le; exact Hi).
    cbv zeta iota.
    rewrite <- (split_upload_path_at _ _ Htail). f_equal. exact Hdec.
Qed.

Lemma or_default_truthy (s d : string) :
  s <> EmptyString -> or_default (Some s) d = s.
Proof. destruct s; [congruence|reflexivity]. Qed.

Lemma truthy_true (s : string) : truthy s = true <-> s <> EmptyString.
Proof. destruct s; simpl; split; congruence. Qed.


(** The building of the body: it ends in what [append] throws for the
    content, or gives the [file] part followed by the [path] part if the
    directory path is not empty. *)
Lemma upload_form_outcome (file : Content) (path : string) :
  upload_form file path =
    match append_error (FVContent file) with
    | Some e => Threw e
    | None => Returned (upload_body file path)
    end.
Proof.
  unfold upload_form, upload_body, FormData_append.
  destruct (split_upload_path path) as [filename directoryPath]. cbn [fst snd].
  destruct file; cbn [instanceof_Buffer append_error];
    try reflexivity; destruct (truthy directoryPath); reflexivity.
Qed.

Lemma upload_form_accepted (file : Content) (path : string) :
  append_error (FVContent file) = None ->
  upload_form file path = Returned (upload_body file path).
Proof. intros H. rewrite upload_form_outcome, H. reflexivity. Qed.

Lemma upload_form_refused (file : Content) (path : string) (e : Thrown) :
  append_error (FVContent file) = Some e -> upload_form file path = Threw e.
Proof. intros H. rewrite upload_form_outcome, H. reflexivity. Qed.

Lemma upload_form_returned (file : Content) (path : string) (body : FormData) :
  upload_form file path = Returned body ->
  append_error (FVContent file) = None /\ body = upload_body file path.
Proof.
  rewrite upload_form_outcome.
  destruct (append_error (FVContent file)); [discriminate|]. intros [= <-]. auto.
Qed.

Lemma parts_named_path_upload_body (file : Content) (path : string) :
  parts_named "path" (upload_body file path) =
    if truthy (snd (split_upload_path path))
    then [path_part (snd (split_upload_path path))] else [].
Proof.
  unfold upload_body, parts_named.
  destruct (instanceof_Buffer file), (truthy (snd (split_upload_path path)));
    reflexivity.
Qed.

End UploadPath.

(** ** Running a call *)

Section Calls.
Variable remote : AxiosInstance -> Log -> Request -> AxiosResult.
Variable getHeaders : FormData -> gmap string string.

Lemma request_run (this : UthoObjectStorage) (req : Request) (log : Log) :
  request remote this req log =
    (intercepted (remote (httpClient this) log req), log ++ [req]).
Proof. unfold request, intercepted. destruct (remote _ _ _); reflexivity. Qed.

Lemma issued_snoc {A : Type} (m : Client A) (log : Log) (o : Outcome A) (req : Request) :
  m log = (o, log ++ [req]) -> issued m log = [req].
Proof. intros H. unfold issued. rewrite H. cbn [snd]. apply drop_app_length. Qed.

(** A call whose result is discarded ([await ...; ] in a [void] method). *)
Lemma discard_run (this : UthoObjectStorage) (req : Request) (log : Log) :
  (request remote this req ≫= λ _, mret tt) log =
    (match remote (httpClient this) log req with
     | Resolved _ => Returned tt
     | Rejected error => Threw (ThrownUtho (handleError error))
     end, log ++ [req]).
Proof.
  unfold mbind, client_bind. rewrite request_run.
  destruct (remote _ _ _); reflexivity.
Qed.

Lemma uploadFile_run (this : UthoObjectStorage) (dcslug name : string)
    (file : Content) (path : string) (log : Log) :
  append_error (FVContent file) = None ->
  uploadFile remote getHeaders this dcslug name file path log =
    (match remote (httpClient this) log
             (upload_request getHeaders this dcslug name (upload_body file path)) with
     | Resolved _ => Returned tt
     | Rejected error => Threw (ThrownUtho (handleError error))
     end,
     log ++ [upload_request getHeaders this dcslug name (upload_body file path)]).
Proof.
  intros H. unfold uploadFile, http_post.
  rewrite (upload_form_accepted file path H). apply discard_run.
Qed.

Lemma uploadFile_issued (this : UthoObjectStorage) (dcslug name : string)
    (file : Content) (path : string) (log : Log) :
  append_error (FVContent file) = None ->
  issued (uploadFile remote getHeaders this dcslug name file path) log =
    [upload_request getHeaders this dcslug name (upload_body file path)].
Proof. intros H. eapply issued_snoc. apply uploadFile_run. exact H. Qed.

(** An upload whose content is refused throws before any request. *)
Lemma uploadFile_refused (this : UthoObjectStorage) (dcslug name : string)
    (file : Content) (path : string) (log : Log) (e : Thrown) :
  append_error (FVContent file) = Some e ->
  uploadFile remote getHeaders this dcslug name file path log = (Threw e, log).
Proof.
  intros H. unfold uploadFile. rewrite (upload_form_refused file path e H). reflexivity.
Qed.

End Calls.

(** ** Claims about the upload path *)

Section UploadClaims.
Import JsString JsStringFacts.
Variable remote : AxiosInstance -> Log -> Request -> AxiosResult.
Variable getHeaders : FormData -> gmap string string.


(** C10.  For the empty path and for every path that ends with [/] the
    file name is the literal ['file'] and the directory path is what
    stands before the final [/]: a buffer is sent as a [file] part named
    ['file'], followed by the [path] part when the directory path is not
    empty.  A path of ['docs/'] gives the parts [file] (named ['file'])
    and [path = 'docs']; the empty path gives the [file] part alone. *)
Theorem upload_empty_name_is_file
    (this : UthoObjectStorage) (dcslug name : string) (b : Buffer) (log : Log) :
  split_upload_path EmptyString = ("file", EmptyString) /\
  (forall d : string, split_upload_path (d +:+ "/") = ("file", d)) /\
  (forall d : string,
      upload_form (CBuffer b) (d +:+ "/") =
        Returned (buffer_file_part (CBuffer b) "file"
                    :: (if truthy d then [path_part d] else []))) /\
  (forall (d : string) (file : Content) (body : FormData),
      upload_form file (d +:+ "/") = Returned body ->
      parts_named "path" body = if truthy d then [path_part d] else []) /\
  (exists headers,
      issued (uploadFile remote getHeaders this dcslug name (CBuffer b) "docs/") log =
        [{| req_method := POST; req_url := upload_url dcslug name;
            req_body := BodyForm [buffer_file_part (CBuffer b) "file"; path_part "docs"];
            req_headers := headers |}]) /\
  (exists headers,
      issued (uploadFile remote getHeaders this dcslug name (CBuffer b) EmptyString) log =
        [{| req_method := POST; req_url := upload_url dcslug name;
            req_body := BodyForm [buffer_file_part (CBuffer b) "file"];
            req_headers := headers |}]).
Proof.
  assert (Hd : forall d : string, split_upload_path (d +:+ "/") = ("file", d)).
  { intros d. exact (split_upload_path_at d EmptyString eq_refl). }
  repeat apply conj.
  - reflexivity.
  - exact Hd.
  - intros d. rewrite (upload_form_accepted (CBuffer b) _ eq_refl).
    unfold upload_body. rewrite Hd. reflexivity.
  - intros d file body Hb. apply upload_form_returned in Hb as [_ ->].
    rewrite parts_named_path_upload_body, Hd. reflexivity.
  - eexists. rewrite (uploadFile_issued _ _ _ _ _ (CBuffer b) _ _ eq_refl). reflexivity.
  - eexists. rewrite (uploadFile_issued _ _ _ _ _ (CBuffer b) _ _ eq_refl). reflexivity.
Qed.

End UploadClaims.



(** ** [putObject] and content that is no buffer *)

Section PutObject.
Variable remote : AxiosInstance -> Log -> Request -> AxiosResult.
Variable getHeaders : FormData -> gmap string string.

(** C2.  With string content, [putObject] is [uploadFile] on the UTF-8
    buffer of the content: at the combined path [path/filename] for a
    path prefix that is not empty, and at the bare file name when the
    prefix is empty or left out.  The two computations are the same, so
    they issue the same request and end the same way. *)
Theorem putObject_is_uploadFile
    (this : UthoObjectStorage) (dcslug name filename content : string) :
  (forall path : string,
      path <> EmptyString ->
      putObject remote getHeaders this dcslug name filename
                (CString content) (Some path) =
      uploadFile remote getHeaders this dcslug name
                 (CBuffer (Buffer_from content)) (path +:+ "/" +:+ filename)) /\
  putObject remote getHeaders this dcslug name filename
            (CString content) (Some EmptyString) =
    uploadFile remote getHeaders this dcslug name
               (CBuffer (Buffer_from content)) filename /\
  putObject remote getHeaders this dcslug name filename
            (CString content) None =
    uploadFile remote getHeaders this dcslug name
               (CBuffer (Buffer_from content)) filename.
Proof.
  repeat split.
  intros path Hne. destruct path as [|c path]; [congruence|reflexivity].
Qed.

(** C3, as the code has it.  [uploadFile] has no check of its own beyond
    [instanceof Buffer].  Of the content that is neither a buffer nor a
    [File], an array and a plain object make the call fail before any
    request is issued, with the [Error] and the [TypeError] that [append]
    throws; a string and a number are not refused: they go into the [file]
    part without options, one POST to the upload endpoint is issued, and
    the call ends as that request does. *)
Theorem uploadFile_other_content
    (this : UthoObjectStorage) (dcslug name : string) (file : Content)
    (path : string) (log : Log) :
  instanceof_Buffer file = false -> is_File file = false ->
  let call := uploadFile remote getHeaders this dcslug name file path in
  let directoryPath := snd (split_upload_path path) in
  let body :=
    plain_file_part file
      :: (if JsString.truthy directoryPath then [path_part directoryPath] else []) in
  let req :=
    {| req_method := POST; req_url := upload_url dcslug name;
       req_body := BodyForm body;
       req_headers := Some (upload_headers getHeaders this body) |} in
  ((exists items, file = CArray items) /\
   call log = (Threw (ThrownError "Arrays are not supported."), log)) \/
  ((exists fields, file = CObject fields) /\
   call log = (Threw ThrownTypeError, log)) \/
  (((exists s, file = CString s) \/ (exists n, file = CNumber n)) /\
   issued call log = [req] /\
   outcome call log =
     match remote (httpClient this) log req with
     | Resolved _ => Returned tt
     | Rejected error => Threw (ThrownUtho (handleError error))
     end).
Proof.
  intros Hbuf Hfile. cbv zeta.
  destruct file as [b|f|s|n|items|fields]; try discriminate Hbuf; try discriminate Hfile.
  - right. right. split; [left; eexists; reflexivity|].
    unfold outcome.
    rewrite (uploadFile_issued _ _ _ _ _ (CString s) _ _ eq_refl).
    rewrite (uploadFile_run _ _ _ _ _ (CString s) _ _ eq_refl).
    split; reflexivity.
  - right. right. split; [right; eexists; reflexivity|].
    unfold outcome.
    rewrite (uploadFile_issued _ _ _ _ _ (CNumber n) _ _ eq_refl).
    rewrite (uploadFile_run _ _ _ _ _ (CNumber n) _ _ eq_refl).
    split; reflexivity.
  - left. split; [eexists; reflexivity|].
    apply uploadFile_refused. reflexivity.
  - right. left. split; [eexists; reflexivity|].
    apply uploadFile_refused. reflexivity.
Qed.

End PutObject.

(** C2 on the scenario of the specification:
    [putObject(dc, bucket, 'notes.txt', 'hi there', 'docs')] against
    [uploadFile(dc, bucket, buffer_of('hi there'), 'docs/notes.txt')]. *)
Lemma putObject_is_uploadFile_witness :
  "docs" <> EmptyString /\
  putObject remote_ok sample_getHeaders (client_of bearer_config)
            "innoida" "my-bucket" "notes.txt" (CString "hi there") (Some "docs") =
  uploadFile remote_ok sample_getHeaders (client_of bearer_config)
             "innoida" "my-bucket" (CBuffer (Buffer_from "hi there")) "docs/notes.txt".
Proof.
  split; [discriminate|].
  apply (putObject_is_uploadFile remote_ok sample_getHeaders (client_of bearer_config)
           "innoida" "my-bucket" "notes.txt" "hi there").
  discriminate.
Defined.

(** C3 as the specification words it fails: a number handed over as file
    content is neither a buffer nor a [File], yet the upload request is
    issued and the call returns. *)
Lemma uploadFile_does_not_fail_fast :
  instanceof_Buffer (CNumber 42) = false /\
  is_File (CNumber 42) = false /\
  outcome (uploadFile remote_ok sample_getHeaders (client_of bearer_config)
             "innoida" "my-bucket" (CNumber 42) "a.txt") [] = Returned tt /\
  issued (uploadFile remote_ok sample_getHeaders (client_of bearer_config)
            "innoida" "my-bucket" (CNumber 42) "a.txt") [] =
    [upload_request sample_getHeaders (client_of bearer_config)
       "innoida" "my-bucket" [plain_file_part (CNumber 42)]] /\
  ~ (exists e,
        uploadFile remote_ok sample_getHeaders (client_of bearer_config)
          "innoida" "my-bucket" (CNumber 42) "a.txt" [] = (Threw e, [])).
Proof.
  split; [reflexivity|]. split; [reflexivity|].
  split; [reflexivity|]. split; [reflexivity|].
  intros [e He]. discriminate He.
Qed.

(** C3 on a string handed to [uploadFile] and a service that answers. *)
Lemma uploadFile_other_content_witness :
  instanceof_Buffer (CString "plain text") = false /\
  is_File (CString "plain text") = false /\
  issued (uploadFile remote_ok sample_getHeaders (client_of bearer_config)
            "innoida" "my-bucket" (CString "plain text") "docs/a.txt") [] =
    [{| req_method := POST; req_url := "/objectstorage/innoida/bucket/my-bucket/upload/";
        req_body := BodyForm [plain_file_part (CString "plain text"); path_part "docs"];
        req_headers :=
          Some (upload_headers sample_getHeaders (client_of bearer_config)
                  [plain_file_part (CString "plain text"); path_part "docs"]) |}].
Proof.
  split; [reflexivity|]. split; [reflexivity|].
  destruct (uploadFile_other_content remote_ok sample_getHeaders
              (client_of bearer_config) "innoida" "my-bucket"
              (CString "plain text") "docs/a.txt" [] eq_refl eq_refl)
    as [[[items H] _]|[[[fields H] _]|(_ & H & _)]].
  - discriminate H.
  - discriminate H.
  - exact H.
Defined.

(** ** [bucketExists] *)

Section BucketExists.
Variable remote : AxiosInstance -> Log -> Request -> AxiosResult.

Lemma strict_eq_num_true (v : JsValue) (n : Z) :
  Js.strict_eq_num v n = true <-> v = JNum n.
Proof.
  destruct v; simpl; try (split; [discriminate|congruence]).
  rewrite Z.eqb_eq. split; congruence.
Qed.

Lemma bucketExists_run (this : UthoObjectStorage) (dcslug name : string) (log : Log) :
  bucketExists remote this dcslug name log =
    match getObjectStorageDetails remote this dcslug name log with
    | (Returned _, log') => (Returned true, log')
    | (Threw e, log') =>
        if Js.strict_eq_num (thrown_statusCode e) 404
        then (Returned false, log') else (Threw e, log')
    end.
Proof.
  unfold bucketExists, try_catch, mbind, client_bind.
  destruct (getObjectStorageDetails remote this dcslug name log) as [[v|e] log'];
    [reflexivity|].
  destruct (Js.strict_eq_num (thrown_statusCode e) 404); reflexivity.
Qed.

(** C4.  [bucketExists] returns [true] when the details call returns,
    [false] when the details call throws an error whose [statusCode] is
    [404], and throws the very error of the details call in every other
    case; it returns [false] in no other situation. *)
Theorem bucketExists_maps_404
    (this : UthoObjectStorage) (dcslug name : string) (log : Log) :
  let details := getObjectStorageDetails remote this dcslug name log in
  let exists_ := bucketExists remote this dcslug name log in
  (forall v log', details = (Returned v, log') -> exists_ = (Returned true, log')) /\
  (forall e log', details = (Threw e, log') ->
                  thrown_statusCode e = JNum 404 -> exists_ = (Returned false, log')) /\
  (forall e log', details = (Threw e, log') ->
                  thrown_statusCode e <> JNum 404 -> exists_ = (Threw e, log')) /\
  (fst exists_ = Returned false <->
   exists u, fst details = Threw (ThrownUtho u) /\ statusCode u = JNum 404).
Proof.
  cbv zeta. rewrite bucketExists_run.
  destruct (getObjectStorageDetails remote this dcslug name log) as [[v|e] log0].
  - repeat split; try (intros; congruence).
    + intros H. discriminate H.
    + intros (u & H & _). discriminate H.
  - destruct (Js.strict_eq_num (thrown_statusCode e) 404) eqn:E.
    + apply strict_eq_num_true in E.
      repeat split; try (intros; congruence).
      intros _. destruct e as [msg| |u]; try discriminate E.
      exists u. split; [reflexivity|exact E].
    + assert (Hne : thrown_statusCode e <> JNum 404).
      { intros H. apply strict_eq_num_true in H. congruence. }
      repeat split; try (intros; congruence).
      * intros H. discriminate H.
      * intros (u & H & Hu). cbn [fst] in H. injection H as ->. contradiction.
Qed.

(** The details call against the transport: it issues one GET and throws
    the normalized error when that request is rejected. *)
Lemma getObjectStorageDetails_rejected
    (this : UthoObjectStorage) (dcslug name : string) (log : Log) (error : AxiosError) :
  let req := {| req_method := GET;
                req_url := "/objectstorage/" +:+ dcslug +:+ "/bucket/" +:+ name +:+ "/";
                req_body := BodyNone; req_headers := None |} in
  remote (httpClient this) log req = Rejected error ->
  getObjectStorageDetails remote this dcslug name log =
    (Threw (ThrownUtho (handleError error)), log ++ [req]).
Proof.
  cbv zeta. intros H.
  unfold getObjectStorageDetails, http_get, mbind, client_bind.
  rewrite request_run, H. reflexivity.
Qed.

(** A rejection that carries the HTTP status [404] makes [bucketExists]
    return [false]. *)
Lemma bucketExists_on_404_response
    (this : UthoObjectStorage) (dcslug name : string) (log : Log) (error : AxiosError) :
  let req := {| req_method := GET;
                req_url := "/objectstorage/" +:+ dcslug +:+ "/bucket/" +:+ name +:+ "/";
                req_body := BodyNone; req_headers := None |} in
  remote (httpClient this) log req = Rejected error ->
  Js.opt_get (err_response error) "status" = JNum 404 ->
  bucketExists remote this dcslug name log = (Returned false, log ++ [req]).
Proof.
  cbv zeta. intros Hrej Hstatus.
  rewrite bucketExists_run, (getObjectStorageDetails_rejected _ _ _ _ _ Hrej).
  cbn [thrown_statusCode handleError statusCode]. rewrite Hstatus. reflexivity.
Qed.

End BucketExists.

(** C4 on three services: one that answers, one that rejects with [404]
    and one that rejects with [500]. *)
Lemma bucketExists_maps_404_witness :
  outcome (bucketExists remote_ok (client_of bearer_config) "innoida" "my-bucket") []
    = Returned true /\
  outcome (bucketExists (remote_status 404) (client_of bearer_config) "innoida" "my-bucket") []
    = Returned false /\
  outcome (bucketExists (remote_status 500) (client_of bearer_config) "innoida" "my-bucket") []
    = Threw (ThrownUtho (handleError (status_error 500))).
Proof.
  unfold outcome. split; [|split].
  - pose proof (bucketExists_maps_404 remote_ok (client_of bearer_config)
                  "innoida" "my-bucket" []) as (H & _).
    erewrite H; reflexivity.
  - pose proof (bucketExists_maps_404 (remote_status 404) (client_of bearer_config)
                  "innoida" "my-bucket" []) as (_ & H & _).
    erewrite H; reflexivity.
  - pose proof (bucketExists_maps_404 (remote_status 500) (client_of bearer_config)
                  "innoida" "my-bucket" []) as (_ & _ & H & _).
    erewrite H; [reflexivity|reflexivity|].
    vm_compute. discriminate.
Defined.

(** ** Construction and authentication headers *)

Section Construction.
Import JsString.

Lemma truthy_opt_supplied (o : option string) :
  truthy_opt o = true <-> supplied o.
Proof.
  unfold supplied. destruct o as [[|c s]|]; simpl; split.
  - discriminate.
  - intros (s & [= <-] & H). congruence.
  - intros _. eexists. split; [reflexivity|discriminate].
  - reflexivity.
  - discriminate.
  - intros (s & H & _). discriminate H.
Qed.

Lemma truthy_opt_not_supplied (o : option string) :
  truthy_opt o = false <-> ~ supplied o.
Proof.
  rewrite <- truthy_opt_supplied. destruct (truthy_opt o); intuition congruence.
Qed.

Lemma supplied_text (o : option string) (s : string) :
  o = Some s -> text o = s.
Proof. intros ->. reflexivity. Qed.

(** C5.  Construction throws exactly when no Bearer token is supplied
    and the access key or the secret key is missing; it returns a client
    when a token is supplied, and when both keys are.  A lone access key
    and a lone secret key are rejected. *)
Theorem constructor_fails_iff_no_credentials (config : UthoConfig) :
  ((exists e, constructor config = Threw e) <->
   ~ supplied (token config) /\
   ~ (supplied (accessKey config) /\ supplied (secretKey config))) /\
  ((exists this, constructor config = Returned this) <->
   supplied (token config) \/
   (supplied (accessKey config) /\ supplied (secretKey config))) /\
  (~ supplied (token config) -> ~ supplied (secretKey config) ->
   constructor config = Threw (ThrownError AUTH_REQUIRED)) /\
  (~ supplied (token config) -> ~ supplied (accessKey config) ->
   constructor config = Threw (ThrownError AUTH_REQUIRED)).
Proof.
  unfold constructor.
  rewrite <- !truthy_opt_not_supplied, <- !truthy_opt_supplied.
  destruct (truthy_opt (token config)), (truthy_opt (accessKey config)),
    (truthy_opt (secretKey config)); cbn [negb andb orb];
    (repeat split; intros;
     repeat match goal with
            | H : exists _, _ |- _ => destruct H
            | H : _ /\ _ |- _ => destruct H
            | H : _ \/ _ |- _ => destruct H
            end;
     try congruence; try (eexists; reflexivity); intuition congruence).
Qed.

(** The authentication block on a header object that holds none of the
    three authentication headers. *)
Lemma add_auth_bearer (cfg : ResolvedConfig) (headers : gmap string string) (t : string) :
  cfg_token cfg = Some t -> t <> EmptyString ->
  headers !! "X-Access-Key" = None -> headers !! "X-Secret-Key" = None ->
  add_auth cfg headers !! "Authorization" = Some ("Bearer " +:+ t) /\
  add_auth cfg headers !! "X-Access-Key" = None /\
  add_auth cfg headers !! "X-Secret-Key" = None.
Proof.
  intros Ht Hne Ha Hs. unfold add_auth.
  assert (truthy_opt (cfg_token cfg) = true) as ->
    by (apply truthy_opt_supplied; exists t; auto).
  rewrite (supplied_text _ _ Ht).
  rewrite lookup_insert_eq, !lookup_insert_ne by discriminate. auto.
Qed.

Lemma add_auth_keys (cfg : ResolvedConfig) (headers : gmap string string) (ak sk : string) :
  ~ supplied (cfg_token cfg) ->
  cfg_accessKey cfg = Some ak -> ak <> EmptyString ->
  cfg_secretKey cfg = Some sk -> sk <> EmptyString ->
  headers !! "Authorization" = None ->
  add_auth cfg headers !! "X-Access-Key" = Some ak /\
  add_auth cfg headers !! "X-Secret-Key" = Some sk /\
  add_auth cfg headers !! "Authorization" = None.
Proof.
  intros Ht Ha Hane Hs Hsne Hh. unfold add_auth.
  apply truthy_opt_not_supplied in Ht. rewrite Ht.
  assert (truthy_opt (cfg_accessKey cfg) = true) as ->
    by (apply truthy_opt_supplied; exists ak; auto).
  assert (truthy_opt (cfg_secretKey cfg) = true) as ->
    by (apply truthy_opt_supplied; exists sk; auto).
  cbn [andb]. rewrite (supplied_text _ _ Ha), (supplied_text _ _ Hs).
  rewrite lookup_insert_eq.
  rewrite (lookup_insert_ne _ "X-Secret-Key" "X-Access-Key") by discriminate.
  rewrite lookup_insert_eq, !lookup_insert_ne by discriminate. auto.
Qed.

Lemma constructor_returned (config : UthoConfig) (this : UthoObjectStorage) :
  constructor config = Returned this -> this = client_of config.
Proof.
  unfold constructor.
  destruct (negb _ && _); [discriminate|]. intros [= <-]. reflexivity.
Qed.

(** C6.  The headers of a constructed client: with a Bearer token
    supplied, alone or next to a key pair, they hold [Authorization] with
    the token and neither [X-Access-Key] nor [X-Secret-Key]; with only a
    key pair supplied they hold the two key headers and no
    [Authorization]. *)
Theorem auth_headers_by_mode (config : UthoConfig) (this : UthoObjectStorage) :
  constructor config = Returned this ->
  let headers := inst_headers (httpClient this) in
  (forall t, token config = Some t -> t <> EmptyString ->
     headers !! "Authorization" = Some ("Bearer " +:+ t) /\
     headers !! "X-Access-Key" = None /\
     headers !! "X-Secret-Key" = None) /\
  (forall ak sk,
     ~ supplied (token config) ->
     accessKey config = Some ak -> ak <> EmptyString ->
     secretKey config = Some sk -> sk <> EmptyString ->
     headers !! "X-Access-Key" = Some ak /\
     headers !! "X-Secret-Key" = Some sk /\
     headers !! "Authorization" = None).
Proof.
  intros Hc. apply constructor_returned in Hc. subst this. cbv zeta.
  cbn [client_of httpClient inst_headers]. split.
  - intros t Ht Hne. apply add_auth_bearer; auto.
  - intros ak sk Hnt Ha Hane Hs Hsne. apply add_auth_keys; auto.
Qed.

End Construction.

(** C5 on the configurations of the test suite: a token, a key pair, and
    no credentials; and on a lone access key. *)
Lemma constructor_fails_iff_no_credentials_witness :
  (exists this, constructor bearer_config = Returned this) /\
  (exists this, constructor keypair_config = Returned this) /\
  constructor {| token := None; accessKey := None; secretKey := None;
                 timeout := None; endpoint := None |}
    = Threw (ThrownError AUTH_REQUIRED) /\
  constructor {| token := None; accessKey := Some "AK"; secretKey := None;
                 timeout := None; endpoint := None |}
    = Threw (ThrownError AUTH_REQUIRED).
Proof.
  split; [|split; [|split]].
  - pose proof (constructor_fails_iff_no_credentials bearer_config) as (_ & [_ H] & _).
    apply H. left. exists "secret-token". split; [reflexivity|discriminate].
  - pose proof (constructor_fails_iff_no_credentials keypair_config) as (_ & [_ H] & _).
    apply H. right. split; eexists; (split; [reflexivity|discriminate]).
  - pose proof (constructor_fails_iff_no_credentials
                  {| token := None; accessKey := None; secretKey := None;
                     timeout := None; endpoint := None |}) as (_ & _ & H & _).
    apply H; intros (s & Hs & _); discriminate Hs.
  - pose proof (constructor_fails_iff_no_credentials
                  {| token := None; accessKey := Some "AK"; secretKey := None;
                     timeout := None; endpoint := None |}) as (_ & _ & H & _).
    apply H; intros (s & Hs & _); discriminate Hs.
Defined.

(** An empty string is no credential: the constructor rejects it. *)
Lemma constructor_empty_token :
  constructor {| token := Some EmptyString; accessKey := None; secretKey := None;
                 timeout := None; endpoint := None |}
    = Threw (ThrownError AUTH_REQUIRED).
Proof. reflexivity. Qed.

(** C6 on a token client, a key-pair client and a client with both. *)
Lemma auth_headers_by_mode_witness :
  (inst_headers (httpClient (client_of bearer_config)) !! "Authorization"
     = Some "Bearer secret-token" /\
   inst_headers (httpClient (client_of bearer_config)) !! "X-Access-Key" = None /\
   inst_headers (httpClient (client_of bearer_config)) !! "X-Secret-Key" = None) /\
  (inst_headers (httpClient (client_of keypair_config)) !! "X-Access-Key" = Some "AK" /\
   inst_headers (httpClient (client_of keypair_config)) !! "X-Secret-Key" = Some "SK" /\
   inst_headers (httpClient (client_of keypair_config)) !! "Authorization" = None) /\
  (inst_headers (httpClient (client_of both_config)) !! "Authorization"
     = Some "Bearer secret-token" /\
   inst_headers (httpClient (client_of both_config)) !! "X-Access-Key" = None /\
   inst_headers (httpClient (client_of both_config)) !! "X-Secret-Key" = None).
Proof.
  split; [|split].
  - apply (auth_headers_by_mode bearer_config (client_of bearer_config) eq_refl
             : _ /\ _); [reflexivity|discriminate].
  - apply (auth_headers_by_mode keypair_config (client_of keypair_config) eq_refl
             : _ /\ _); try reflexivity; try discriminate.
    intros (s & H & _); discriminate H.
  - apply (auth_headers_by_mode both_config (client_of both_config) eq_refl
             : _ /\ _); [reflexivity|discriminate].
Defined.

(** ** Sharable links *)

Section SharableUrl.
Variable remote : AxiosInstance -> Log -> Request -> AxiosResult.
Variable JSON_stringify : JsValue -> string.

Lemma append_inj_l (p a b : string) : p +:+ a = p +:+ b -> a = b.
Proof.
  induction p as [|c p IH]; [trivial|].
  rewrite !JsStringFacts.append_cons. intros [= H]. exact (IH H).
Qed.

Lemma actual_expiry_never : actual_expiry "never" = "1y".
Proof. reflexivity. Qed.

Lemma actual_expiry_other (duration : string) :
  duration <> "never" -> actual_expiry duration = duration.
Proof.
  intros Hne. unfold actual_expiry.
  destruct (String.eqb duration "never") eqn:E; [|reflexivity].
  apply String.eqb_eq in E. contradiction.
Qed.

(** [getSharableUrl] issues one GET, whatever the service answers. *)
Lemma getSharableUrl_issued
    (this : UthoObjectStorage) (dcslug name filename expiryTime : string) (log : Log) :
  issued (getSharableUrl remote JSON_stringify this dcslug name filename expiryTime) log =
    [{| req_method := GET;
        req_url := download_url dcslug name filename (actual_expiry expiryTime);
        req_body := BodyNone; req_headers := None |}].
Proof.
  unfold issued, getSharableUrl, http_get, mbind, client_bind.
  rewrite request_run.
  destruct (remote _ _ _) as [response|error]; cbn [intercepted].
  - destruct (Js.is_string (resp_data response)); [apply drop_app_length|].
    destruct (Js.get (resp_data response) "url") as [url|]; [|apply drop_app_length].
    destruct (Js.truthy url); [apply drop_app_length|].
    destruct (Js.truthy _); apply drop_app_length.
  - apply drop_app_length.
Qed.

(** C7.  With the duration ['never'] the request carries [expire=1y], not
    [expire=never]; with any other duration it carries the duration as
    given. *)
Theorem getSharableUrl_translates_never
    (this : UthoObjectStorage) (dcslug name filename : string) (log : Log) :
  issued (getSharableUrl remote JSON_stringify this dcslug name filename "never") log =
    [{| req_method := GET;
        req_url := "/objectstorage/" +:+ dcslug +:+ "/bucket/" +:+ name
                     +:+ "/download?path=" +:+ filename +:+ "&expire=" +:+ "1y";
        req_body := BodyNone; req_headers := None |}] /\
  issued (getSharableUrl remote JSON_stringify this dcslug name filename "never") log <>
    [{| req_method := GET;
        req_url := "/objectstorage/" +:+ dcslug +:+ "/bucket/" +:+ name
                     +:+ "/download?path=" +:+ filename +:+ "&expire=" +:+ "never";
        req_body := BodyNone; req_headers := None |}] /\
  (forall duration : string,
      duration <> "never" ->
      issued (getSharableUrl remote JSON_stringify this dcslug name filename duration) log =
        [{| req_method := GET;
            req_url := "/objectstorage/" +:+ dcslug +:+ "/bucket/" +:+ name
                         +:+ "/download?path=" +:+ filename +:+ "&expire=" +:+ duration;
            req_body := BodyNone; req_headers := None |}]).
Proof.
  split; [|split].
  - rewrite getSharableUrl_issued. reflexivity.
  - rewrite getSharableUrl_issued, actual_expiry_never. unfold download_url.
    intros [= H]. do 7 apply append_inj_l in H. discriminate H.
  - intros duration Hne.
    rewrite getSharableUrl_issued, (actual_expiry_other duration Hne). reflexivity.
Qed.

End SharableUrl.

(** C7 on the durations ['never'] and ['7d']. *)
Lemma getSharableUrl_translates_never_witness :
  issued (getSharableUrl remote_ok sample_stringify (client_of bearer_config)
            "innoida" "my-bucket" "file.txt" "never") [] =
    [{| req_method := GET;
        req_url := "/objectstorage/innoida/bucket/my-bucket/download?path=file.txt&expire=1y";
        req_body := BodyNone; req_headers := None |}] /\
  "7d" <> "never" /\
  issued (getSharableUrl remote_ok sample_stringify (client_of bearer_config)
            "innoida" "my-bucket" "file.txt" "7d") [] =
    [{| req_method := GET;
        req_url := "/objectstorage/innoida/bucket/my-bucket/download?path=file.txt&expire=7d";
        req_body := BodyNone; req_headers := None |}].
Proof.
  pose proof (getSharableUrl_translates_never remote_ok sample_stringify
                (client_of bearer_config) "innoida" "my-bucket" "file.txt" [])
    as (Hnever & _ & Hother).
  split; [exact Hnever|]. split; [discriminate|].
  apply (Hother "7d"). discriminate.
Defined.

(** ** Headers of the upload request *)

Section UploadHeaders.
Variable remote : AxiosInstance -> Log -> Request -> AxiosResult.
Variable getHeaders : FormData -> gmap string string.

(** C8.  When [uploadFile] has built its body and dispatches, the
    [headers] of the request are the authentication headers of the client
    merged with the headers of the multipart body.  A header the body
    defines, [Content-Type] with its boundary above all, has the body's
    value; every other header has the value the authentication block gave
    it; and no authentication header is lost: [Authorization] is there
    when a token is supplied, [X-Access-Key] and [X-Secret-Key] when only
    the key pair is. *)
Theorem upload_headers_merge
    (this : UthoObjectStorage) (dcslug name : string) (file : Content)
    (path : string) (log : Log) (body : FormData) :
  upload_form file path = Returned body ->
  let authHeaders := add_auth (config this) ∅ in
  exists merged : gmap string string,
    issued (uploadFile remote getHeaders this dcslug name file path) log =
      [{| req_method := POST; req_url := upload_url dcslug name;
          req_body := BodyForm body; req_headers := Some merged |}] /\
    (forall k v, getHeaders body !! k = Some v -> merged !! k = Some v) /\
    (forall k, getHeaders body !! k = None -> merged !! k = authHeaders !! k) /\
    (forall k, is_Some (authHeaders !! k) -> is_Some (merged !! k)) /\
    (forall k, is_Some (merged !! k) <->
               is_Some (getHeaders body !! k) \/ is_Some (authHeaders !! k)) /\
    (supplied (cfg_token (config this)) -> is_Some (merged !! "Authorization")) /\
    (~ supplied (cfg_token (config this)) ->
     supplied (cfg_accessKey (config this)) ->
     supplied (cfg_secretKey (config this)) ->
     is_Some (merged !! "X-Access-Key") /\ is_Some (merged !! "X-Secret-Key")).
Proof.
  intros Hform. cbv zeta.
  destruct (upload_form_returned file path body Hform) as [Hacc ->].
  exists (upload_headers getHeaders this (upload_body file path)).
  assert (Hkeep : forall k,
             is_Some (add_auth (config this) ∅ !! k) ->
             is_Some (upload_headers getHeaders this (upload_body file path) !! k)).
  { intros k [v Hv]. unfold upload_headers.
    destruct (getHeaders (upload_body file path) !! k) as [w|] eqn:E.
    - exists w. apply lookup_union_Some_l. exact E.
    - exists v. rewrite lookup_union_r; assumption. }
  split; [apply uploadFile_issued; exact Hacc|].
  split; [intros k v H; unfold upload_headers; apply lookup_union_Some_l; exact H|].
  split; [intros k H; unfold upload_headers; apply lookup_union_r; exact H|].
  split; [exact Hkeep|].
  split.
  - intros k. unfold upload_headers. rewrite lookup_union_is_Some. reflexivity.
  - split.
    + intros (t & Ht & Hne). apply Hkeep.
      destruct (add_auth_bearer (config this) ∅ t Ht Hne) as (H & _);
        [apply lookup_empty..|].
      rewrite H. eexists. reflexivity.
    + intros Hnt (ak & Ha & Hane) (sk & Hs & Hsne).
      destruct (add_auth_keys (config this) ∅ ak sk Hnt Ha Hane Hs Hsne)
        as (H1 & H2 & _); [apply lookup_empty|].
      split; apply Hkeep; [rewrite H1|rewrite H2]; eexists; reflexivity.
Qed.

End UploadHeaders.

(** C8 on a token client and a body whose headers name the content type:
    the merged map has the multipart content type and the token. *)
Lemma upload_headers_merge_witness :
  upload_form (CBuffer []) "documents/file.txt" =
    Returned [buffer_file_part (CBuffer []) "file.txt"; path_part "documents"] /\
  exists merged : gmap string string,
    issued (uploadFile remote_ok sample_getHeaders (client_of bearer_config)
              "innoida" "my-bucket" (CBuffer []) "documents/file.txt") [] =
      [{| req_method := POST; req_url := "/objectstorage/innoida/bucket/my-bucket/upload/";
          req_body :=
            BodyForm [buffer_file_part (CBuffer []) "file.txt"; path_part "documents"];
          req_headers := Some merged |}] /\
    merged !! "content-type" = Some "multipart/form-data; boundary=----sample" /\
    merged !! "Authorization" = Some "Bearer secret-token".
Proof.
  split; [reflexivity|].
  destruct (upload_headers_merge remote_ok sample_getHeaders (client_of bearer_config)
              "innoida" "my-bucket" (CBuffer []) "documents/file.txt" []
              [buffer_file_part (CBuffer []) "file.txt"; path_part "documents"] eq_refl)
    as (merged & Hreq & Hbody & Hauth & _).
  exists merged. split; [exact Hreq|]. split.
  - apply Hbody. reflexivity.
  - rewrite Hauth; reflexivity.
Defined.

(** ** Error normalization *)

Section Normalization.
Variable remote : AxiosInstance -> Log -> Request -> AxiosResult.
Variable getHeaders : FormData -> gmap string string.
Variable JSON_stringify : JsValue -> string.

Lemma reads_only_ret {A : Type} (f : AxiosResponse -> A) :
  reads_only (fun response => mret (f response)).
Proof. intros response log. eexists. split; [reflexivity|]. discriminate. Qed.

Lemma reads_only_data_or_self : reads_only data_or_self.
Proof.
  intros response log. unfold data_or_self.
  destruct (Js.get (resp_data response) "data"); eexists;
    (split; [reflexivity|]); [discriminate|]. intros e [= <-]. reflexivity.
Qed.

(** One request followed by reading its answer. *)
Lemma single_call {A : Type} (this : UthoObjectStorage) (req : Request)
    (k : AxiosResponse -> Client A) :
  reads_only k -> surfaces_normalized remote this (request remote this req ≫= k).
Proof.
  intros Hk log. exists req. unfold mbind, client_bind. rewrite request_run.
  destruct (remote (httpClient this) log req) as [response|error] eqn:E;
    cbn [intercepted].
  - destruct (Hk response (log ++ [req])) as (o & Ho & Hthrown).
    exists o. split; [exact Ho|]. split; [discriminate|].
    intros e He. right. exists response. split; [reflexivity|]. exact (Hthrown e He).
  - eexists. split; [reflexivity|]. split.
    + intros error' [= <-]. reflexivity.
    + intros e [= <-]. left. exists error. split; reflexivity.
Qed.

Lemma request_surfaces (this : UthoObjectStorage) (req : Request) :
  surfaces_normalized remote this (request remote this req).
Proof.
  intros log. exists req. rewrite request_run.
  destruct (remote (httpClient this) log req) as [response|error] eqn:E;
    cbn [intercepted]; eexists; (split; [reflexivity|]); split.
  - discriminate.
  - discriminate.
  - intros error' [= <-]. reflexivity.
  - intros e [= <-]. left. exists error. split; reflexivity.
Qed.

Lemma discard_surfaces {A : Type} (this : UthoObjectStorage) (m : Client A) :
  surfaces_normalized remote this m -> surfaces_normalized remote this (discard m).
Proof.
  intros Hm log. destruct (Hm log) as (req & o & Hrun & Hrej & Hthrown).
  exists req. unfold discard, mbind, client_bind. rewrite Hrun.
  destruct o as [a|e].
  - eexists. split; [reflexivity|]. split; [|discriminate].
    intros error Herr. discriminate (Hrej error Herr).
  - eexists. split; [reflexivity|]. split.
    + intros error Herr. injection (Hrej error Herr) as ->. reflexivity.
    + intros e' [= <-]. exact (Hthrown e eq_refl).
Qed.

Lemma reads_only_listObjects :
  reads_only (fun response =>
    match Js.get (resp_data response) "objects" with
    | None => throw ThrownTypeError
    | Some objects => if Js.truthy objects then mret objects else data_or_self response
    end).
Proof.
  intros response log.
  destruct (Js.get (resp_data response) "objects") as [objects|].
  - destruct (Js.truthy objects).
    + eexists. split; [reflexivity|discriminate].
    + apply reads_only_data_or_self.
  - eexists. split; [reflexivity|]. intros e [= <-]. reflexivity.
Qed.

Lemma reads_only_getSharableUrl :
  reads_only (fun response =>
    let data := resp_data response in
    if Js.is_string data then mret data
    else
      match Js.get data "url" with
      | None => throw ThrownTypeError
      | Some url =>
          if Js.truthy url then mret url
          else if Js.truthy (Js.opt_get data "download_url")
               then mret (Js.opt_get data "download_url")
               else mret (JStr (JSON_stringify data))
      end).
Proof.
  intros response log. cbv zeta.
  destruct (Js.is_string (resp_data response));
    [eexists; split; [reflexivity|discriminate]|].
  destruct (Js.get (resp_data response) "url") as [url|].
  - destruct (Js.truthy url); [eexists; split; [reflexivity|discriminate]|].
    destruct (Js.truthy _); eexists; (split; [reflexivity|discriminate]).
  - eexists. split; [reflexivity|]. intros e [= <-]. reflexivity.
Qed.

Lemma run_surfaces (this : UthoObjectStorage) (c : Call) :
  refused_upload c = None ->
  surfaces_normalized remote this (run remote getHeaders JSON_stringify this c).
Proof.
  intros Hacc.
  destruct c; cbn [run];
    try (apply discard_surfaces);
    unfold listObjectStorages, createObjectStorage, getObjectStorageDetails,
      deleteObjectStorage, getObjectStoragePlans, listAccessKeys, createAccessKey,
      modifyAccessKey, updateAccessPolicy, updatePermission, listObjects,
      createDirectory, getObject, getSharableUrl, deleteFile,
      deleteDirectory, http_get, http_delete;
    cbv zeta;
    try first
      [ apply request_surfaces
      | apply single_call; apply reads_only_data_or_self
      | apply single_call; apply reads_only_listObjects
      | apply single_call; apply reads_only_getSharableUrl ].
  - cbn [refused_upload] in Hacc. unfold uploadFile, http_post.
    rewrite (upload_form_accepted file path Hacc).
    apply (discard_surfaces this (request remote this _)). apply request_surfaces.
  - unfold putObject, uploadFile, http_post. cbv zeta.
    rewrite upload_form_accepted.
    + apply (discard_surfaces this (request remote this _)). apply request_surfaces.
    + destruct content; cbn [refused_upload] in Hacc; try exact Hacc; reflexivity.
Qed.

(** A refused upload throws before any request. *)
Lemma run_refused (this : UthoObjectStorage) (c : Call) (e : Thrown) (log : Log) :
  refused_upload c = Some e ->
  run remote getHeaders JSON_stringify this c log = (Threw e, log).
Proof.
  destruct c; cbn [refused_upload run]; try discriminate.
  - intros H. apply uploadFile_refused. exact H.
  - intros H. unfold putObject. cbv zeta.
    destruct content; try discriminate H; apply uploadFile_refused; exact H.
Qed.

(** C9.  [handleError] builds the one error shape: [code] is the code
    of the response body, else the code of the transport error, else
    ['UnknownError']; [message] is the message of the response body, else
    that of the transport error, else ['An unknown error occurred'];
    [statusCode] is the status of the response, else [500]; [requestId]
    is the [x-request-id] response header when there is one.  Every call
    of the client that reaches the transport issues one request, and when
    the transport rejects it the call throws [handleError] of the
    rejection; nothing else is thrown but a [TypeError] raised while
    reading a response that did arrive.  The calls that do not reach the
    transport are the uploads whose content [append] refuses: they throw
    before any request, so no remote call has failed.  The same holds for
    what [bucketExists] lets through. *)
Theorem failures_are_normalized (this : UthoObjectStorage) :
  (forall error : AxiosError,
      let response := err_response error in
      let data := Js.opt_get response "data" in
      code (handleError error) =
        (if Js.truthy (Js.opt_get data "code") then Js.opt_get data "code"
         else if Js.truthy (err_code error) then err_code error
              else JStr "UnknownError") /\
      message (handleError error) =
        (if Js.truthy (Js.opt_get data "message") then Js.opt_get data "message"
         else if Js.truthy (err_message error) then err_message error
              else JStr "An unknown error occurred") /\
      statusCode (handleError error) =
        (if Js.truthy (Js.opt_get response "status") then Js.opt_get response "status"
         else JNum 500) /\
      requestId (handleError error) =
        Js.opt_get (Js.opt_get response "headers") "x-request-id") /\
  (forall c : Call,
      refused_upload c = None ->
      surfaces_normalized remote this (run remote getHeaders JSON_stringify this c)) /\
  (forall (c : Call) (e : Thrown) (log : Log),
      refused_upload c = Some e ->
      run remote getHeaders JSON_stringify this c log = (Threw e, log)) /\
  (forall (dcslug name : string) (log : Log) (e : Thrown),
      fst (bucketExists remote this dcslug name log) = Threw e ->
      exists req : Request,
        snd (bucketExists remote this dcslug name log) = log ++ [req] /\
        ((exists error, remote (httpClient this) log req = Rejected error /\
                        e = ThrownUtho (handleError error)) \/
         (exists response, remote (httpClient this) log req = Resolved response /\
                           e = ThrownTypeError))).
Proof.
  split; [|split; [|split]].
  - intros error. cbv zeta. unfold handleError, Js.or. cbn [code message statusCode requestId].
    destruct (Js.truthy (Js.opt_get (Js.opt_get (err_response error) "data") "code")) eqn:E1,
             (Js.truthy (Js.opt_get (Js.opt_get (err_response error) "data") "message")) eqn:E2;
      rewrite ?E1, ?E2; repeat split; reflexivity.
  - apply run_surfaces.
  - intros c e log. apply run_refused.
  - intros dcslug name log e. rewrite bucketExists_run.
    destruct (single_call this
                {| req_method := GET;
                   req_url := "/objectstorage/" +:+ dcslug +:+ "/bucket/" +:+ name +:+ "/";
                   req_body := BodyNone; req_headers := None |}
                data_or_self reads_only_data_or_self log)
      as (req & o & Hrun & _ & Hthrown).
    change (request remote this _ ≫= data_or_self)
      with (getObjectStorageDetails remote this dcslug name) in Hrun.
    rewrite Hrun. destruct o as [v|e0]; [discriminate|].
    destruct (Js.strict_eq_num (thrown_statusCode e0) 404); [discriminate|].
    cbn [fst snd]. intros [= <-]. exists req. split; [reflexivity|].
    exact (Hthrown e0 eq_refl).
Qed.

End Normalization.

(** C9 on a service that rejects with a status and an error body, on a
    transport that fails without a response, for a listing, a deletion and
    the upload of a buffer; and on the upload of an array, which never
    reaches the transport. *)
Lemma failures_are_normalized_witness :
  outcome (run (remote_status 500) sample_getHeaders sample_stringify
             (client_of bearer_config) (call_deleteFile "innoida" "my-bucket" "a.txt")) [] =
    Threw (ThrownUtho {| code := JStr "NoSuchBucket"; message := JStr "bucket not found";
                         statusCode := JNum 500; requestId := JStr "req-1" |}) /\
  outcome (run remote_down sample_getHeaders sample_stringify
             (client_of bearer_config) (call_listObjects "innoida" "my-bucket")) [] =
    Threw (ThrownUtho {| code := JStr "ECONNABORTED";
                         message := JStr "timeout of 30000ms exceeded";
                         statusCode := JNum 500; requestId := JUndefined |}) /\
  outcome (run remote_down sample_getHeaders sample_stringify
             (client_of bearer_config)
             (call_uploadFile "innoida" "my-bucket" (CBuffer []) "a.txt")) [] =
    Threw (ThrownUtho {| code := JStr "ECONNABORTED";
                         message := JStr "timeout of 30000ms exceeded";
                         statusCode := JNum 500; requestId := JUndefined |}) /\
  run remote_down sample_getHeaders sample_stringify (client_of bearer_config)
      (call_uploadFile "innoida" "my-bucket" (CArray []) "a.txt") [] =
    (Threw (ThrownError "Arrays are not supported."), []).
Proof.
  split; [|split; [|split]].
  - destruct (failures_are_normalized (remote_status 500) sample_getHeaders sample_stringify
                (client_of bearer_config)) as (_ & Hrun & _).
    destruct (Hrun (call_deleteFile "innoida" "my-bucket" "a.txt") eq_refl [])
      as (req & o & Heq & Hrej & _).
    unfold outcome. rewrite Heq. cbn [fst].
    rewrite (Hrej (status_error 500) eq_refl). reflexivity.
  - destruct (failures_are_normalized remote_down sample_getHeaders sample_stringify
                (client_of bearer_config)) as (_ & Hrun & _).
    destruct (Hrun (call_listObjects "innoida" "my-bucket") eq_refl [])
      as (req & o & Heq & Hrej & _).
    unfold outcome. rewrite Heq. cbn [fst].
    rewrite (Hrej network_error eq_refl). reflexivity.
  - destruct (failures_are_normalized remote_down sample_getHeaders sample_stringify
                (client_of bearer_config)) as (_ & Hrun & _).
    destruct (Hrun (call_uploadFile "innoida" "my-bucket" (CBuffer []) "a.txt") eq_refl [])
      as (req & o & Heq & Hrej & _).
    unfold outcome. rewrite Heq. cbn [fst].
    rewrite (Hrej network_error eq_refl). reflexivity.
  - destruct (failures_are_normalized remote_down sample_getHeaders sample_stringify
                (client_of bearer_config)) as (_ & _ & Href & _).
    apply Href. reflexivity.
Defined.

(** ** Scenarios of the documentation *)

(** Uploading the buffer of ['Hello, World!'] to ['hello.txt']: one
    multipart POST to the upload endpoint, with a [file] part named
    ['hello.txt'] of type [application/octet-stream] and no [path] part. *)
Example upload_hello :
  issued (uploadFile remote_ok sample_getHeaders (client_of bearer_config)
            "innoida" "my-bucket" (CBuffer (Buffer_from "Hello, World!")) "hello.txt") [] =
    [{| req_method := POST;
        req_url := "/objectstorage/innoida/bucket/my-bucket/upload/";
        req_body :=
          BodyForm [{| part_field := "file";
                       part_value := FVContent (CBuffer (Buffer_from "Hello, World!"));
                       part_options :=
                         Some {| filename := "hello.txt";
                                 contentType := "application/octet-stream" |} |}];
        req_headers :=
          Some (<["Authorization" := "Bearer secret-token"]>
                  {[ "content-type" := "multipart/form-data; boundary=----sample" ]}) |}].
Proof.
  rewrite uploadFile_issued by reflexivity. reflexivity.
Qed.

(** The paths ['documents/file1.txt'] to ['documents/file10.txt'] of the
    multi-file example: each yields its own file name, free of [/], and
    the directory ['documents']. *)
Example upload_ten_files :
  Forall (fun n : string =>
            split_upload_path ("documents/file" +:+ n +:+ ".txt")
              = ("file" +:+ n +:+ ".txt", "documents") /\
            JsString.has_slash (fst (split_upload_path ("documents/file" +:+ n +:+ ".txt")))
              = false)
         ["1"; "2"; "3"; "4"; "5"; "6"; "7"; "8"; "9"; "10"].
Proof. repeat constructor. Qed.

(** The file name the code picks never holds a [/]. *)
Lemma upload_filename_has_no_slash (path : string) :
  JsString.has_slash (fst (split_upload_path path)) = false.
Proof.
  rewrite split_upload_path_spec. cbn [fst].
  unfold name_after_last_slash.
  destruct (JsStringFacts.lastIndexOf_spec path) as [[Hs Hi]|(Hs & Hi & _ & Htail)].
  - rewrite Hi. change (0 <=? -1) with false. cbv iota zeta.
    destruct path; [reflexivity|exact Hs].
  - assert ((0 <=? JsString.lastIndexOf path) = true) as -> by (apply Z.leb_le; exact Hi).
    cbv iota zeta.
    destruct (JsString.substring_from _ path); [reflexivity|exact Htail].
Qed.

(** * Further properties of the client *)

(** ** The upload path, once more *)

Section UploadPathMore.
Import JsString JsStringFacts.
Variable remote : AxiosInstance -> Log -> Request -> AxiosResult.
Variable getHeaders : FormData -> gmap string string.

(** The file name [uploadFile] computes is never empty and never holds a
    [/], whatever the path. *)
Theorem upload_filename_wellformed (path : string) :
  fst (split_upload_path path) <> EmptyString /\
  has_slash (fst (split_upload_path path)) = false.
Proof.
  split; [|apply upload_filename_has_no_slash].
  rewrite split_upload_path_spec. cbn [fst].
  destruct (name_after_last_slash path); discriminate.
Qed.

(** The split loses nothing: the directory path, a [/] and the substring
    after the last [/] give the path back; when that substring is not
    empty it is the computed file name, so directory, [/] and file name
    rebuild the path, and a path without [/] is its own file name. *)
Theorem split_upload_path_rejoin (path : string) :
  let filename := fst (split_upload_path path) in
  let directoryPath := snd (split_upload_path path) in
  (has_slash path = true ->
     directoryPath +:+ "/" +:+ name_after_last_slash path = path) /\
  (has_slash path = true -> name_after_last_slash path <> EmptyString ->
     directoryPath +:+ "/" +:+ filename = path) /\
  (has_slash path = false -> path <> EmptyString ->
     filename = path /\ directoryPath = EmptyString).
Proof.
  cbv zeta. rewrite split_upload_path_spec. cbn [fst snd].
  unfold name_after_last_slash, directory_before_last_slash.
  destruct (lastIndexOf_spec path) as [[Hs Hi]|(Hs & Hi & Hdec & Htail)].
  - rewrite Hi. change (0 <=? -1) with false. cbv iota zeta.
    split; [congruence|]. split; [congruence|].
    intros _ Hne. split; [apply or_default_truthy; exact Hne|reflexivity].
  - assert ((0 <=? lastIndexOf path) = true) as -> by (apply Z.leb_le; exact Hi).
    cbv iota zeta. split; [|split].
    + intros _. symmetry. exact Hdec.
    + intros _ Hne. rewrite (or_default_truthy _ _ Hne). symmetry. exact Hdec.
    + congruence.
Qed.

(** [putObject] and [uploadFile] fit together: for a file name that is
    not empty and holds no [/], and a path prefix that is not empty,
    [putObject] with string content sends the UTF-8 buffer as a [file]
    part named by that file name, followed by a [path] part that holds
    the prefix. *)
Theorem putObject_body
    (this : UthoObjectStorage) (dcslug name filename content path : string) (log : Log) :
  filename <> EmptyString -> has_slash filename = false -> path <> EmptyString ->
  issued (putObject remote getHeaders this dcslug name filename
            (CString content) (Some path)) log =
    [{| req_method := POST; req_url := upload_url dcslug name;
        req_body :=
          BodyForm [buffer_file_part (CBuffer (Buffer_from content)) filename;
                    path_part path];
        req_headers :=
          Some (upload_headers getHeaders this
                  [buffer_file_part (CBuffer (Buffer_from content)) filename;
                   path_part path]) |}].
Proof.
  intros Hf Hs Hp.
  assert (putObject remote getHeaders this dcslug name filename
            (CString content) (Some path) =
          uploadFile remote getHeaders this dcslug name
            (CBuffer (Buffer_from content)) (path +:+ "/" +:+ filename)) as ->
    by (destruct path; [congruence|reflexivity]).
  apply truthy_true in Hp.
  rewrite uploadFile_issued by reflexivity. unfold upload_request, upload_body.
  change (path +:+ "/" +:+ filename) with (path +:+ String slash filename).
  rewrite (split_upload_path_at path filename Hs). cbn [fst snd instanceof_Buffer].
  rewrite (or_default_truthy _ _ Hf), Hp. reflexivity.
Qed.

(** For content that is not a buffer the file name in the path plays no
    part: two paths with the same directory make [uploadFile] the same
    computation.  For a string or a number, which [append] takes, it is
    one and the same request that goes out for both paths. *)
Theorem upload_file_ignores_name
    (this : UthoObjectStorage) (dcslug name : string) (file : Content)
    (path1 path2 : string) (log : Log) :
  instanceof_Buffer file = false ->
  snd (split_upload_path path1) = snd (split_upload_path path2) ->
  uploadFile remote getHeaders this dcslug name file path1 =
    uploadFile remote getHeaders this dcslug name file path2 /\
  (append_error (FVContent file) = None ->
   exists req : Request,
     issued (uploadFile remote getHeaders this dcslug name file path1) log = [req] /\
     issued (uploadFile remote getHeaders this dcslug name file path2) log = [req]).
Proof.
  intros Hb Hd.
  assert (Hbody : upload_body file path1 = upload_body file path2)
    by (unfold upload_body; rewrite Hb, Hd; reflexivity).
  split.
  - unfold uploadFile. rewrite !upload_form_outcome, Hbody. reflexivity.
  - intros Hacc. eexists.
    rewrite !uploadFile_issued by exact Hacc. rewrite Hbody. split; reflexivity.
Qed.

End UploadPathMore.

(** [putObject('notes.txt', 'hi there', 'docs/2024')]. *)
Lemma putObject_body_witness :
  "notes.txt" <> EmptyString /\ JsString.has_slash "notes.txt" = false /\
  "docs/2024" <> EmptyString /\
  exists headers,
    issued (putObject remote_ok sample_getHeaders (client_of bearer_config)
              "innoida" "my-bucket" "notes.txt" (CString "hi there")
              (Some "docs/2024")) [] =
      [{| req_method := POST;
          req_url := "/objectstorage/innoida/bucket/my-bucket/upload/";
          req_body :=
            BodyForm [buffer_file_part (CBuffer (Buffer_from "hi there")) "notes.txt";
                      path_part "docs/2024"];
          req_headers := headers |}].
Proof.
  split; [discriminate|]. split; [reflexivity|]. split; [discriminate|].
  eexists.
  apply (putObject_body remote_ok sample_getHeaders (client_of bearer_config)
           "innoida" "my-bucket" "notes.txt" "hi there" "docs/2024" []);
    [discriminate|reflexivity|discriminate].
Defined.

(** A string sent to ['docs/a.txt'] and to ['docs/b.txt']: the same
    request, with the [file] part and [path = 'docs']. *)
Lemma upload_file_ignores_name_witness :
  instanceof_Buffer (CString "plain text") = false /\
  snd (split_upload_path "docs/a.txt") = snd (split_upload_path "docs/b.txt") /\
  append_error (FVContent (CString "plain text")) = None /\
  issued (uploadFile remote_ok sample_getHeaders (client_of bearer_config)
            "innoida" "my-bucket" (CString "plain text") "docs/a.txt") [] =
  issued (uploadFile remote_ok sample_getHeaders (client_of bearer_config)
            "innoida" "my-bucket" (CString "plain text") "docs/b.txt") [].
Proof.
  split; [reflexivity|]. split; [reflexivity|]. split; [reflexivity|].
  destruct (upload_file_ignores_name remote_ok sample_getHeaders (client_of bearer_config)
              "innoida" "my-bucket" (CString "plain text") "docs/a.txt" "docs/b.txt" []
              eq_refl eq_refl) as (_ & H).
  destruct (H eq_refl) as (req & H1 & H2). rewrite H1, H2. reflexivity.
Defined.

(** The rejoining at ['a/b/c.txt'] and at ['c.txt']. *)
Lemma split_upload_path_rejoin_witness :
  (JsString.has_slash "a/b/c.txt" = true /\
   snd (split_upload_path "a/b/c.txt") +:+ "/" +:+ fst (split_upload_path "a/b/c.txt")
     = "a/b/c.txt") /\
  (JsString.has_slash "c.txt" = false /\ fst (split_upload_path "c.txt") = "c.txt").
Proof.
  split; (split; [reflexivity|]).
  - pose proof (split_upload_path_rejoin "a/b/c.txt") as (_ & H & _).
    apply H; [reflexivity|]. vm_compute. discriminate.
  - pose proof (split_upload_path_rejoin "c.txt") as (_ & _ & H).
    apply H; [reflexivity|discriminate].
Defined.

(** ** The constructed client *)

Section Constructed.
Import JsString.

Lemma constructor_returned_auth (conf : UthoConfig) (this : UthoObjectStorage) :
  constructor conf = Returned this ->
  truthy_opt (token conf) = true \/
  (truthy_opt (accessKey conf) = true /\ truthy_opt (secretKey conf) = true).
Proof.
  unfold constructor.
  destruct (truthy_opt (token conf)), (truthy_opt (accessKey conf)),
    (truthy_opt (secretKey conf)); cbn [negb andb orb]; intros H;
    try discriminate H; auto.
Qed.

Lemma add_auth_union (cfg : ResolvedConfig) (headers : gmap string string) :
  add_auth cfg headers = add_auth cfg ∅ ∪ headers.
Proof.
  unfold add_auth.
  destruct (truthy_opt (cfg_token cfg)).
  - rewrite <- insert_union_l, (left_id_L ∅ (∪)). reflexivity.
  - destruct (truthy_opt (cfg_accessKey cfg) && truthy_opt (cfg_secretKey cfg)).
    + rewrite <- !insert_union_l, (left_id_L ∅ (∪)). reflexivity.
    + rewrite (left_id_L ∅ (∪)). reflexivity.
Qed.

(** Defaults.  A constructed client has the endpoint and the timeout of
    the configuration when these are given and truthy, and
    [https://api.utho.com/v2] and [30000] otherwise: an empty endpoint and
    a timeout of [0] are replaced like missing ones, so the base URL is
    never empty and the timeout never [0]. *)
Theorem constructor_applies_defaults (conf : UthoConfig) (this : UthoObjectStorage) :
  constructor conf = Returned this ->
  baseURL (httpClient this) <> EmptyString /\
  inst_timeout (httpClient this) <> 0 /\
  baseURL (httpClient this) = cfg_endpoint (config this) /\
  inst_timeout (httpClient this) = cfg_timeout (config this) /\
  (forall e, endpoint conf = Some e -> e <> EmptyString ->
             baseURL (httpClient this) = e) /\
  (~ supplied (endpoint conf) -> baseURL (httpClient this) = DEFAULT_ENDPOINT) /\
  (forall t, timeout conf = Some t -> t <> 0 -> inst_timeout (httpClient this) = t) /\
  (timeout conf = None \/ timeout conf = Some 0 ->
   inst_timeout (httpClient this) = 30000).
Proof.
  intros Hc. apply constructor_returned in Hc. subst this.
  cbn [client_of httpClient config baseURL inst_timeout resolve cfg_endpoint cfg_timeout].
  repeat split.
  - destruct (endpoint conf) as [[|c e]|]; discriminate.
  - unfold timeout_or_default. destruct (timeout conf) as [t|]; [|discriminate].
    destruct (t =? 0) eqn:E; [discriminate|]. apply Z.eqb_neq. exact E.
  - intros e -> Hne. destruct e; [congruence|reflexivity].
  - intros Hn. apply truthy_opt_not_supplied in Hn.
    destruct (endpoint conf) as [[|c e]|]; try reflexivity. discriminate Hn.
  - intros t -> Hne. unfold timeout_or_default.
    apply Z.eqb_neq in Hne. rewrite Hne. reflexivity.
  - intros [-> | ->]; reflexivity.
Qed.

Ltac warn_finish :=
  repeat match goal with
         | |- _ -> _ => intro
         | H : _ /\ _ |- _ => destruct H
         | H : exists _, _ |- _ => destruct H
         | H : Some _ = Some _ |- _ => injection H as H; subst
         end;
  try congruence; try discriminate; try reflexivity;
  try (eexists; repeat split; congruence).

(** Warnings.  The constructor warns exactly when it succeeds with an
    endpoint that is given, not empty and not the default one, and then
    it writes two lines; a failed construction writes nothing. *)
Theorem constructor_warns_on_custom_endpoint (conf : UthoConfig) :
  (constructor_warnings conf <> [] <->
   (exists this, constructor conf = Returned this) /\
   (exists e, endpoint conf = Some e /\ e <> EmptyString /\ e <> DEFAULT_ENDPOINT)) /\
  (constructor_warnings conf <> [] -> length (constructor_warnings conf) = 2%nat) /\
  ((exists e, constructor conf = Threw e) -> constructor_warnings conf = []).
Proof.
  unfold constructor_warnings.
  destruct (constructor conf) as [this|e] eqn:Hc.
  - destruct (endpoint conf) as [[|c ep]|] eqn:He; cbn [truthy_opt truthy andb].
    + repeat split; warn_finish.
    + change (text (Some (String c ep))) with (String c ep).
      destruct (String.eqb (String c ep) DEFAULT_ENDPOINT) eqn:E; cbn [negb].
      * apply String.eqb_eq in E. repeat split; warn_finish.
      * apply String.eqb_neq in E. repeat split; warn_finish.
    + repeat split; warn_finish.
  - repeat split; warn_finish.
Qed.

(** [getConfiguration] on a constructed client: [hasAuth] is always
    [true]; [authType] is [bearer] exactly when a token is supplied, which
    is exactly when the client's headers carry [Authorization]; endpoint
    and timeout are those of the transport. *)
Theorem getConfiguration_of_constructed (conf : UthoConfig) (this : UthoObjectStorage) :
  constructor conf = Returned this ->
  hasAuth (getConfiguration this) = true /\
  (authType (getConfiguration this) = bearer <-> supplied (token conf)) /\
  (authType (getConfiguration this) = bearer <->
   is_Some (inst_headers (httpClient this) !! "Authorization")) /\
  conf_endpoint (getConfiguration this) = baseURL (httpClient this) /\
  conf_timeout (getConfiguration this) = inst_timeout (httpClient this).
Proof.
  intros Hc. pose proof (constructor_returned_auth _ _ Hc) as Hauth.
  apply constructor_returned in Hc. subst this.
  rewrite <- truthy_opt_supplied.
  cbn [client_of getConfiguration hasAuth authType conf_endpoint conf_timeout config
       httpClient baseURL inst_timeout inst_headers resolve cfg_token cfg_accessKey
       cfg_secretKey cfg_endpoint cfg_timeout].
  unfold add_auth.
  cbn [resolve cfg_token cfg_accessKey cfg_secretKey].
  destruct (truthy_opt (token conf)) eqn:Et.
  - repeat split; try congruence.
    + intros _. rewrite lookup_insert_eq. eexists. reflexivity.
  - destruct Hauth as [H|[Ha Hs]]; [discriminate|]. rewrite Ha, Hs. cbn [andb orb].
    repeat split; try congruence.
    intros [v Hv]. rewrite !lookup_insert_ne in Hv by discriminate.
    unfold base_headers in Hv. rewrite !lookup_insert_ne in Hv by discriminate.
    rewrite lookup_empty in Hv. discriminate.
Qed.

(** The headers of a constructed client always hold the JSON content
    type and the user agent, and always authenticate, in one mode only:
    either [Authorization] or the two key headers, never both. *)
Theorem instance_headers_invariant (conf : UthoConfig) (this : UthoObjectStorage) :
  constructor conf = Returned this ->
  let headers := inst_headers (httpClient this) in
  headers !! "Content-Type" = Some "application/json" /\
  headers !! "User-Agent" = Some "@utho/object-storage/1.0.0" /\
  (is_Some (headers !! "Authorization") \/
   (is_Some (headers !! "X-Access-Key") /\ is_Some (headers !! "X-Secret-Key"))) /\
  ~ (is_Some (headers !! "Authorization") /\ is_Some (headers !! "X-Access-Key")) /\
  ~ (is_Some (headers !! "Authorization") /\ is_Some (headers !! "X-Secret-Key")).
Proof.
  intros Hc. pose proof (constructor_returned_auth _ _ Hc) as Hauth.
  apply constructor_returned in Hc. subst this. cbv zeta.
  cbn [client_of httpClient inst_headers]. unfold add_auth, base_headers.
  cbn [resolve cfg_token cfg_accessKey cfg_secretKey].
  destruct (truthy_opt (token conf)) eqn:Et.
  - rewrite lookup_insert_eq, !lookup_insert_ne, lookup_insert_eq by discriminate.
    rewrite !lookup_insert_ne, lookup_insert_eq by discriminate.
    rewrite !lookup_insert_ne, lookup_empty by discriminate.
    repeat split.
    + left. eexists. reflexivity.
    + intros [_ [v Hv]]. discriminate Hv.
    + intros [_ [v Hv]]. discriminate Hv.
  - destruct Hauth as [H|[Ha Hs]]; [discriminate|]. rewrite Ha, Hs. cbn [andb].
    rewrite lookup_insert_eq.
    rewrite (lookup_insert_ne _ "X-Secret-Key" "X-Access-Key"), lookup_insert_eq by discriminate.
    rewrite !(lookup_insert_ne _ _ "Content-Type"), lookup_insert_eq by discriminate.
    rewrite !(lookup_insert_ne _ _ "User-Agent"), lookup_insert_eq by discriminate.
    rewrite !(lookup_insert_ne _ _ "Authorization"), lookup_empty by discriminate.
    repeat split.
    + right. split; eexists; reflexivity.
    + intros [[v Hv] _]. discriminate Hv.
    + intros [[v Hv] _]. discriminate Hv.
Qed.

(** The authentication headers [uploadFile] computes anew for its request
    are those of the client: the client's headers are these on top of the
    content type and the user agent, every one of them is among the
    client's headers with the same value, and they hold no [Content-Type]
    and no [User-Agent] of their own. *)
Theorem upload_auth_agrees_with_instance (conf : UthoConfig) (this : UthoObjectStorage) :
  constructor conf = Returned this ->
  let authHeaders := add_auth (config this) ∅ in
  inst_headers (httpClient this) = authHeaders ∪ base_headers /\
  (forall k v, authHeaders !! k = Some v -> inst_headers (httpClient this) !! k = Some v) /\
  authHeaders !! "Content-Type" = None /\
  authHeaders !! "User-Agent" = None /\
  authHeaders <> ∅.
Proof.
  intros Hc. pose proof (constructor_returned_auth _ _ Hc) as Hauth.
  apply constructor_returned in Hc. subst this. cbv zeta.
  cbn [client_of httpClient inst_headers config].
  split; [apply add_auth_union|].
  split; [intros k v Hk; rewrite add_auth_union; apply lookup_union_Some_l; exact Hk|].
  unfold add_auth. cbn [resolve cfg_token cfg_accessKey cfg_secretKey].
  destruct (truthy_opt (token conf)) eqn:Et.
  - rewrite !lookup_insert_ne, lookup_empty by discriminate.
    repeat split. apply insert_non_empty.
  - destruct Hauth as [H|[Ha Hs]]; [discriminate|]. rewrite Ha, Hs. cbn [andb].
    rewrite !lookup_insert_ne, lookup_empty by discriminate.
    repeat split. apply insert_non_empty.
Qed.

End Constructed.

(** ** Reading responses *)

Section Responses.
Variable remote : AxiosInstance -> Log -> Request -> AxiosResult.
Variable JSON_stringify : JsValue -> string.

Lemma get_not_nullish (v : JsValue) (k : string) :
  v <> JNull -> v <> JUndefined -> Js.get v k = Some (Js.opt_get v k).
Proof. destruct v; intros H1 H2; try reflexivity; congruence. Qed.

Lemma get_nullish (v : JsValue) (k : string) :
  v = JNull \/ v = JUndefined -> Js.get v k = None.
Proof. intros [-> | ->]; reflexivity. Qed.

Lemma truthy_opt_get_not_nullish (v : JsValue) (k : string) :
  Js.truthy (Js.opt_get v k) = true -> v <> JNull /\ v <> JUndefined.
Proof. destruct v; simpl; intros H; try discriminate H; split; discriminate. Qed.

(** One request followed by [response.data.data || response.data]. *)
Lemma data_or_self_unwraps (this : UthoObjectStorage) (req : Request) :
  unwraps_envelope remote this (request remote this req ≫= data_or_self) req.
Proof.
  intros log response Hres. cbv zeta.
  unfold mbind, client_bind. rewrite request_run, Hres. cbn [intercepted].
  unfold data_or_self. split; [|split].
  - intros Ht. destruct (truthy_opt_get_not_nullish _ _ Ht) as [H1 H2].
    rewrite (get_not_nullish _ _ H1 H2). unfold Js.or. rewrite Ht. reflexivity.
  - intros Hf H1 H2. rewrite (get_not_nullish _ _ H1 H2).
    unfold Js.or. rewrite Hf. reflexivity.
  - intros Hn. rewrite (get_nullish _ _ Hn). reflexivity.
Qed.

(** The six listing and creating methods accept both shapes of a body:
    from an envelope [{ data: payload }] with a truthy payload they
    return the payload; any other body that is not [null] or [undefined]
    (a bare array, an object without [data], an envelope around [null],
    [0] or ['']) they return whole; a [null] or [undefined] body makes
    them throw a [TypeError] after the request went out. *)
Theorem listing_methods_unwrap_envelope (this : UthoObjectStorage)
    (dcslug name : string) (cos : CreateObjectStorageRequest)
    (cak : CreateAccessKeyRequest) :
  unwraps_envelope remote this (listObjectStorages remote this dcslug)
    (bare_request GET ("/objectstorage/" +:+ dcslug +:+ "/bucket/")) /\
  unwraps_envelope remote this (createObjectStorage remote this cos)
    {| req_method := POST; req_url := "/objectstorage/bucket/create/";
       req_body := BodyJson (json_of_CreateObjectStorageRequest cos);
       req_headers := None |} /\
  unwraps_envelope remote this (getObjectStorageDetails remote this dcslug name)
    (bare_request GET ("/objectstorage/" +:+ dcslug +:+ "/bucket/" +:+ name +:+ "/")) /\
  unwraps_envelope remote this (getObjectStoragePlans remote this)
    (bare_request GET "/pricing/objectstorage/") /\
  unwraps_envelope remote this (listAccessKeys remote this dcslug)
    (bare_request GET ("/objectstorage/" +:+ dcslug +:+ "/accesskeys")) /\
  unwraps_envelope remote this (createAccessKey remote this dcslug cak)
    {| req_method := POST;
       req_url := "/objectstorage/" +:+ dcslug +:+ "/accesskey/create";
       req_body := BodyJson (json_of_CreateAccessKeyRequest cak);
       req_headers := None |}.
Proof. repeat apply conj; apply data_or_self_unwraps. Qed.

(** [listObjects] looks for [objects] first: a truthy [objects] property,
    an empty array included, is the answer whatever [data] holds; without
    one the body is read like that of the other listings; a [null] or
    [undefined] body throws a [TypeError]. *)
Theorem listObjects_prefers_objects (this : UthoObjectStorage) (dcslug name : string)
    (log : Log) (response : AxiosResponse) :
  let req := bare_request GET
               ("/objectstorage/" +:+ dcslug +:+ "/bucket/" +:+ name +:+ "/objects/") in
  let body := resp_data response in
  remote (httpClient this) log req = Resolved response ->
  (Js.truthy (Js.opt_get body "objects") = true ->
     listObjects remote this dcslug name log =
       (Returned (Js.opt_get body "objects"), log ++ [req])) /\
  (forall items, Js.opt_get body "objects" = JArr items ->
     listObjects remote this dcslug name log = (Returned (JArr items), log ++ [req])) /\
  (Js.truthy (Js.opt_get body "objects") = false ->
   Js.truthy (Js.opt_get body "data") = true ->
     listObjects remote this dcslug name log =
       (Returned (Js.opt_get body "data"), log ++ [req])) /\
  (Js.truthy (Js.opt_get body "objects") = false ->
   Js.truthy (Js.opt_get body "data") = false ->
   body <> JNull -> body <> JUndefined ->
     listObjects remote this dcslug name log = (Returned body, log ++ [req])) /\
  (body = JNull \/ body = JUndefined ->
     listObjects remote this dcslug name log = (Threw ThrownTypeError, log ++ [req])).
Proof.
  cbv zeta. intros Hres.
  unfold listObjects, http_get, mbind, client_bind.
  fold (bare_request GET
          ("/objectstorage/" +:+ dcslug +:+ "/bucket/" +:+ name +:+ "/objects/")).
  rewrite request_run, Hres. cbn [intercepted].
  repeat apply conj.
  - intros Ht. destruct (truthy_opt_get_not_nullish _ _ Ht) as [H1 H2].
    rewrite (get_not_nullish _ _ H1 H2), Ht. reflexivity.
  - intros items Hi.
    assert (Ht : Js.truthy (Js.opt_get (resp_data response) "objects") = true)
      by (rewrite Hi; reflexivity).
    destruct (truthy_opt_get_not_nullish _ _ Ht) as [H1 H2].
    rewrite (get_not_nullish _ _ H1 H2), Ht, Hi. reflexivity.
  - intros Hf Ht. destruct (truthy_opt_get_not_nullish _ _ Ht) as [H1 H2].
    rewrite (get_not_nullish _ _ H1 H2), Hf. unfold data_or_self.
    rewrite (get_not_nullish _ _ H1 H2). unfold Js.or. rewrite Ht. reflexivity.
  - intros Hf Hd H1 H2.
    rewrite (get_not_nullish _ _ H1 H2), Hf. unfold data_or_self.
    rewrite (get_not_nullish _ _ H1 H2). unfold Js.or. rewrite Hd. reflexivity.
  - intros Hn. rewrite (get_nullish _ _ Hn). reflexivity.
Qed.

End Responses.

Section SharableResult.
Variable remote : AxiosInstance -> Log -> Request -> AxiosResult.
Variable JSON_stringify : JsValue -> string.

(** What [getSharableUrl] returns.  A string body is the answer as it
    is, the empty string included; otherwise a truthy [url] property, else
    a truthy [download_url] property, else the JSON text of the body; a
    [null] or [undefined] body throws a [TypeError]. *)
Theorem getSharableUrl_result (this : UthoObjectStorage)
    (dcslug name filename expiryTime : string) (log : Log) (response : AxiosResponse) :
  let req := bare_request GET (download_url dcslug name filename (actual_expiry expiryTime)) in
  let body := resp_data response in
  let call := getSharableUrl remote JSON_stringify this dcslug name filename expiryTime in
  remote (httpClient this) log req = Resolved response ->
  (forall s, body = JStr s -> call log = (Returned (JStr s), log ++ [req])) /\
  (Js.is_string body = false -> Js.truthy (Js.opt_get body "url") = true ->
     call log = (Returned (Js.opt_get body "url"), log ++ [req])) /\
  (Js.is_string body = false -> Js.truthy (Js.opt_get body "url") = false ->
   Js.truthy (Js.opt_get body "download_url") = true ->
     call log = (Returned (Js.opt_get body "download_url"), log ++ [req])) /\
  (Js.is_string body = false -> body <> JNull -> body <> JUndefined ->
   Js.truthy (Js.opt_get body "url") = false ->
   Js.truthy (Js.opt_get body "download_url") = false ->
     call log = (Returned (JStr (JSON_stringify body)), log ++ [req])) /\
  (body = JNull \/ body = JUndefined ->
     call log = (Threw ThrownTypeError, log ++ [req])).
Proof.
  cbv zeta. intros Hres.
  unfold getSharableUrl, http_get, mbind, client_bind.
  fold (bare_request GET (download_url dcslug name filename (actual_expiry expiryTime))).
  rewrite request_run, Hres. cbn [intercepted]. cbv zeta.
  repeat apply conj.
  - intros s Hs. rewrite Hs. reflexivity.
  - intros Hstr Ht. destruct (truthy_opt_get_not_nullish _ _ Ht) as [H1 H2].
    rewrite Hstr, (get_not_nullish _ _ H1 H2), Ht. reflexivity.
  - intros Hstr Hf Ht. destruct (truthy_opt_get_not_nullish _ _ Ht) as [H1 H2].
    rewrite Hstr, (get_not_nullish _ _ H1 H2), Hf, Ht. reflexivity.
  - intros Hstr H1 H2 Hf Hg.
    rewrite Hstr, (get_not_nullish _ _ H1 H2), Hf, Hg. reflexivity.
  - intros [Hn | Hn]; rewrite Hn; reflexivity.
Qed.

(** The [expire] parameter is never ['never']: whatever duration
    [getSharableUrl] is given, the one request it issues names an expiry
    that differs from ['never'], and that is the given duration unless
    that was ['never']. *)
Theorem expire_parameter_never_never (this : UthoObjectStorage)
    (dcslug name filename expiryTime : string) (log : Log) :
  exists expiry : string,
    issued (getSharableUrl remote JSON_stringify this dcslug name filename expiryTime) log =
      [bare_request GET (download_url dcslug name filename expiry)] /\
    expiry <> "never" /\
    actual_expiry expiry = expiry /\
    (expiryTime <> "never" -> expiry = expiryTime).
Proof.
  exists (actual_expiry expiryTime). split; [apply getSharableUrl_issued|].
  unfold actual_expiry.
  destruct (String.eqb expiryTime "never") eqn:E.
  - repeat split; [discriminate|]. apply String.eqb_eq in E. congruence.
  - rewrite E. apply String.eqb_neq in E. repeat split; assumption.
Qed.

(** [getObject] is [getSharableUrl]; with the duration left out it asks
    for one hour, and with ['never'] for one year. *)
Theorem getObject_defaults_to_one_hour (this : UthoObjectStorage)
    (dcslug name filename : string) (log : Log) :
  (forall expiryTime,
      getObject remote JSON_stringify this dcslug name filename (Some expiryTime) =
      getSharableUrl remote JSON_stringify this dcslug name filename expiryTime) /\
  issued (getObject remote JSON_stringify this dcslug name filename None) log =
    [bare_request GET
       ("/objectstorage/" +:+ dcslug +:+ "/bucket/" +:+ name
          +:+ "/download?path=" +:+ filename +:+ "&expire=1h")] /\
  issued (getObject remote JSON_stringify this dcslug name filename (Some "never")) log =
    [bare_request GET
       ("/objectstorage/" +:+ dcslug +:+ "/bucket/" +:+ name
          +:+ "/download?path=" +:+ filename +:+ "&expire=1y")].
Proof.
  repeat apply conj.
  - reflexivity.
  - unfold getObject. rewrite getSharableUrl_issued. reflexivity.
  - unfold getObject. rewrite getSharableUrl_issued. reflexivity.
Qed.

End SharableResult.

(** ** Deleting *)

Section Deleting.
Variable remote : AxiosInstance -> Log -> Request -> AxiosResult.

Lemma append_slash_neq (s : string) : s +:+ "/" <> s.
Proof.
  induction s as [|c s IH]; [discriminate|].
  rewrite JsStringFacts.append_cons. intros [= H]. exact (IH H).
Qed.

(** [deleteFile] adds a [/] to the file name: it is [deleteDirectory] on
    the name followed by [/], and the request it issues is never the one
    [deleteDirectory] issues for the same name. *)
Theorem deleteFile_appends_slash (this : UthoObjectStorage)
    (dcslug name filename : string) (log : Log) :
  deleteFile remote this dcslug name filename =
    deleteDirectory remote this dcslug name (filename +:+ "/") /\
  issued (deleteFile remote this dcslug name filename) log =
    [bare_request DELETE
       ("/objectstorage/" +:+ dcslug +:+ "/bucket/" +:+ name
          +:+ "/delete/object?path=" +:+ filename +:+ "/")] /\
  issued (deleteFile remote this dcslug name filename) log <>
    issued (deleteDirectory remote this dcslug name filename) log.
Proof.
  assert (Hi : forall url,
             issued (http_delete remote this url ≫= λ _, mret tt) log =
               [bare_request DELETE url]).
  { intros url. eapply issued_snoc. unfold http_delete. apply discard_run. }
  repeat apply conj.
  - reflexivity.
  - apply Hi.
  - unfold deleteFile, deleteDirectory. rewrite !Hi. intros [= H].
    do 5 apply append_inj_l in H. exact (append_slash_neq filename H).
Qed.

End Deleting.

(** ** [bucketExists] against the transport *)

Section BucketExistsTransport.
Variable remote : AxiosInstance -> Log -> Request -> AxiosResult.

Lemma or_truthy_r (a b : JsValue) : Js.truthy b = true -> Js.truthy (Js.or a b) = true.
Proof. intros Hb. unfold Js.or. destruct (Js.truthy a) eqn:E; assumption. Qed.

(** Every field [handleError] fills from fallbacks is truthy: a normalized
    error always has a code, a message and a status code that is not [0]. *)
Theorem handleError_fields_truthy (error : AxiosError) :
  Js.truthy (code (handleError error)) = true /\
  Js.truthy (message (handleError error)) = true /\
  Js.truthy (statusCode (handleError error)) = true /\
  statusCode (handleError error) <> JNum 0 /\
  statusCode (handleError error) <> JUndefined.
Proof.
  assert (Hs : Js.truthy (statusCode (handleError error)) = true)
    by (apply or_truthy_r; reflexivity).
  repeat apply conj; try (apply or_truthy_r; reflexivity).
  - intros H. rewrite H in Hs. discriminate Hs.
  - intros H. rewrite H in Hs. discriminate Hs.
Qed.

Lemma nullish_get (v : JsValue) (k : string) :
  Js.get v k = if nullish v then None else Some (Js.opt_get v k).
Proof. destruct v; reflexivity. Qed.

(** [bucketExists] by the answer of the transport.  It issues one GET for
    the bucket.  A response with a body gives [true]; a response whose
    body is [null] or [undefined] gives a [TypeError]; a rejection with
    status [404] gives [false]; any other rejection, a failure without a
    response among them, is thrown in normalized form. *)
Theorem bucketExists_by_transport (this : UthoObjectStorage) (dcslug name : string)
    (log : Log) :
  let req := bare_request GET
               ("/objectstorage/" +:+ dcslug +:+ "/bucket/" +:+ name +:+ "/") in
  let call := bucketExists remote this dcslug name log in
  (forall response, remote (httpClient this) log req = Resolved response ->
     nullish (resp_data response) = false -> call = (Returned true, log ++ [req])) /\
  (forall response, remote (httpClient this) log req = Resolved response ->
     nullish (resp_data response) = true ->
     call = (Threw ThrownTypeError, log ++ [req])) /\
  (forall error, remote (httpClient this) log req = Rejected error ->
     Js.opt_get (err_response error) "status" = JNum 404 ->
     call = (Returned false, log ++ [req])) /\
  (forall error, remote (httpClient this) log req = Rejected error ->
     Js.opt_get (err_response error) "status" <> JNum 404 ->
     call = (Threw (ThrownUtho (handleError error)), log ++ [req])) /\
  (forall error, remote (httpClient this) log req = Rejected error ->
     err_response error = JUndefined ->
     call = (Threw (ThrownUtho (handleError error)), log ++ [req])).
Proof.
  cbv zeta.
  assert (Hother : forall error,
             remote (httpClient this) log
               (bare_request GET
                  ("/objectstorage/" +:+ dcslug +:+ "/bucket/" +:+ name +:+ "/"))
               = Rejected error ->
             Js.opt_get (err_response error) "status" <> JNum 404 ->
             bucketExists remote this dcslug name log =
               (Threw (ThrownUtho (handleError error)),
                log ++ [bare_request GET
                          ("/objectstorage/" +:+ dcslug +:+ "/bucket/" +:+ name +:+ "/")])).
  { intros error Hrej Hne.
    rewrite bucketExists_run, (getObjectStorageDetails_rejected _ _ _ _ _ _ Hrej).
    cbn [thrown_statusCode handleError statusCode]. unfold Js.or.
    destruct (Js.truthy (Js.opt_get (err_response error) "status")) eqn:Et.
    - destruct (Js.strict_eq_num _ 404) eqn:E; [|reflexivity].
      apply strict_eq_num_true in E. contradiction.
    - reflexivity. }
  repeat apply conj.
  - intros response Hres Hn. rewrite bucketExists_run.
    unfold getObjectStorageDetails, http_get, mbind, client_bind.
    fold (bare_request GET ("/objectstorage/" +:+ dcslug +:+ "/bucket/" +:+ name +:+ "/")).
    rewrite request_run, Hres. cbn [intercepted]. unfold data_or_self.
    rewrite nullish_get, Hn. reflexivity.
  - intros response Hres Hn. rewrite bucketExists_run.
    unfold getObjectStorageDetails, http_get, mbind, client_bind.
    fold (bare_request GET ("/objectstorage/" +:+ dcslug +:+ "/bucket/" +:+ name +:+ "/")).
    rewrite request_run, Hres. cbn [intercepted]. unfold data_or_self.
    rewrite nullish_get, Hn. reflexivity.
  - intros error Hrej Hs.
    exact (bucketExists_on_404_response remote this dcslug name log error Hrej Hs).
  - exact Hother.
  - intros error Hrej Hu. apply (Hother error Hrej). rewrite Hu. discriminate.
Qed.

End BucketExistsTransport.

(** ** Methods that read nothing *)

Section VoidMethods.
Variable remote : AxiosInstance -> Log -> Request -> AxiosResult.
Variable getHeaders : FormData -> gmap string string.
Variable JSON_stringify : JsValue -> string.

(** The [void] methods (deleting, modifying a key, policy, permission,
    creating a directory, uploading content that [append] takes) succeed
    on every response the transport lets through, whatever its body, a
    [null] body included: they never throw a [TypeError]. *)
Theorem void_methods_ignore_body (this : UthoObjectStorage) (c : Call) (log : Log) :
  returns_nothing c = true ->
  refused_upload c = None ->
  exists req : Request,
    snd (run remote getHeaders JSON_stringify this c log) = log ++ [req] /\
    (forall response, remote (httpClient this) log req = Resolved response ->
       fst (run remote getHeaders JSON_stringify this c log) = Returned tt) /\
    fst (run remote getHeaders JSON_stringify this c log) <> Threw ThrownTypeError.
Proof.
  intros Hc Hacc.
  assert (Hreq : forall req : Request,
             exists req' : Request,
               snd ((request remote this req ≫= λ _, mret tt) log) = log ++ [req'] /\
               (forall response, remote (httpClient this) log req' = Resolved response ->
                  fst ((request remote this req ≫= λ _, mret tt) log) = Returned tt) /\
               fst ((request remote this req ≫= λ _, mret tt) log) <> Threw ThrownTypeError).
  { intros req. exists req. rewrite discard_run. cbn [fst snd].
    split; [reflexivity|]. split.
    - intros response Hres. rewrite Hres. reflexivity.
    - destruct (remote _ _ _); discriminate. }
  destruct c; try discriminate Hc; cbn [run];
    unfold deleteObjectStorage, modifyAccessKey, updateAccessPolicy, updatePermission,
      createDirectory, deleteFile, deleteDirectory, http_post, http_delete;
    try apply Hreq.
  - cbn [refused_upload] in Hacc. unfold uploadFile, http_post.
    rewrite (upload_form_accepted file path Hacc). apply Hreq.
  - unfold putObject, uploadFile, http_post. cbv zeta.
    rewrite upload_form_accepted; [apply Hreq|].
    destruct content; cbn [refused_upload] in Hacc; try exact Hacc; reflexivity.
Qed.

End VoidMethods.

(** ** The further properties on concrete clients and services *)

(** A policy update and the upload of a string through [putObject],
    against a service that answers [200] with a [null] body. *)
Lemma void_methods_ignore_body_witness :
  outcome (run (remote_body JNull) sample_getHeaders sample_stringify
             (client_of bearer_config)
             (call_updateAccessPolicy "innoida" "my-bucket" "public")) [] = Returned tt /\
  outcome (run (remote_body JNull) sample_getHeaders sample_stringify
             (client_of bearer_config)
             (call_putObject "innoida" "my-bucket" "notes.txt" (CString "hi there")
                (Some "docs"))) [] = Returned tt.
Proof.
  split.
  - destruct (void_methods_ignore_body (remote_body JNull) sample_getHeaders
                sample_stringify (client_of bearer_config)
                (call_updateAccessPolicy "innoida" "my-bucket" "public") []
                eq_refl eq_refl) as (req & _ & H & _).
    exact (H _ eq_refl).
  - destruct (void_methods_ignore_body (remote_body JNull) sample_getHeaders
                sample_stringify (client_of bearer_config)
                (call_putObject "innoida" "my-bucket" "notes.txt" (CString "hi there")
                   (Some "docs")) [] eq_refl eq_refl) as (req & _ & H & _).
    exact (H _ eq_refl).
Defined.

(** A configuration with a custom endpoint and timeout, and one with an
    empty endpoint and a timeout of [0]. *)
Lemma constructor_applies_defaults_witness :
  (baseURL (httpClient (client_of both_config)) = "https://custom.api.com" /\
   inst_timeout (httpClient (client_of both_config)) = 60000) /\
  (baseURL (httpClient (client_of
      {| token := Some "t"; accessKey := None; secretKey := None;
         timeout := Some 0; endpoint := Some EmptyString |})) = DEFAULT_ENDPOINT /\
   inst_timeout (httpClient (client_of
      {| token := Some "t"; accessKey := None; secretKey := None;
         timeout := Some 0; endpoint := Some EmptyString |})) = 30000).
Proof.
  split.
  - destruct (constructor_applies_defaults both_config (client_of both_config) eq_refl)
      as (_ & _ & _ & _ & He & _ & Ht & _).
    split; [apply He; [reflexivity|discriminate]|apply Ht; [reflexivity|discriminate]].
  - destruct (constructor_applies_defaults
                {| token := Some "t"; accessKey := None; secretKey := None;
                   timeout := Some 0; endpoint := Some EmptyString |}
                (client_of {| token := Some "t"; accessKey := None; secretKey := None;
                              timeout := Some 0; endpoint := Some EmptyString |}) eq_refl)
      as (_ & _ & _ & _ & _ & He & _ & Ht).
    split; [apply He; intros (e & [= <-] & Hne); congruence|apply Ht; right; reflexivity].
Defined.

(** The custom endpoint of [both_config] is announced; the default
    endpoint given in full is not. *)
Lemma constructor_warns_on_custom_endpoint_witness :
  constructor_warnings both_config <> [] /\
  length (constructor_warnings both_config) = 2%nat.
Proof.
  destruct (constructor_warns_on_custom_endpoint both_config) as ([_ Hw] & Hl & _).
  assert (H : constructor_warnings both_config <> []).
  { apply Hw. split; [eexists; reflexivity|].
    exists "https://custom.api.com". repeat split; discriminate. }
  split; [exact H|exact (Hl H)].
Defined.

Lemma getConfiguration_of_constructed_witness :
  hasAuth (getConfiguration (client_of keypair_config)) = true /\
  authType (getConfiguration (client_of bearer_config)) = bearer.
Proof.
  split.
  - apply (getConfiguration_of_constructed keypair_config (client_of keypair_config) eq_refl).
  - destruct (getConfiguration_of_constructed bearer_config (client_of bearer_config) eq_refl)
      as (_ & [_ H] & _).
    apply H. exists "secret-token". split; [reflexivity|discriminate].
Defined.

Lemma instance_headers_invariant_witness :
  inst_headers (httpClient (client_of keypair_config)) !! "Content-Type"
    = Some "application/json" /\
  inst_headers (httpClient (client_of keypair_config)) !! "User-Agent"
    = Some "@utho/object-storage/1.0.0".
Proof.
  destruct (instance_headers_invariant keypair_config (client_of keypair_config) eq_refl)
    as (H1 & H2 & _).
  split; [exact H1|exact H2].
Defined.

Lemma upload_auth_agrees_with_instance_witness :
  inst_headers (httpClient (client_of keypair_config)) =
    add_auth (config (client_of keypair_config)) ∅ ∪ base_headers /\
  add_auth (config (client_of keypair_config)) ∅ !! "Content-Type" = None.
Proof.
  destruct (upload_auth_agrees_with_instance keypair_config (client_of keypair_config)
              eq_refl) as (H1 & _ & H2 & _).
  split; [exact H1|exact H2].
Defined.

(** A listing answered with an envelope around an empty array, and with a
    bare array. *)
Lemma listing_methods_unwrap_envelope_witness :
  listObjectStorages (remote_body (JObj [("data", JArr [])])) (client_of bearer_config)
    "innoida" [] =
    (Returned (JArr []),
     [bare_request GET "/objectstorage/innoida/bucket/"]) /\
  listObjectStorages (remote_body (JArr [JStr "b1"])) (client_of bearer_config)
    "innoida" [] =
    (Returned (JArr [JStr "b1"]),
     [bare_request GET "/objectstorage/innoida/bucket/"]).
Proof.
  split.
  - destruct (listing_methods_unwrap_envelope (remote_body (JObj [("data", JArr [])]))
                (client_of bearer_config) "innoida" "my-bucket"
                {| cos_dcslug := "innoida"; cos_billing := "Monthly";
                   cos_size := "10"; cos_name := "my-bucket" |}
                {| cak_accesskey := "k" |}) as (H & _).
    destruct (H [] _ eq_refl) as (Ht & _). exact (Ht eq_refl).
  - destruct (listing_methods_unwrap_envelope (remote_body (JArr [JStr "b1"]))
                (client_of bearer_config) "innoida" "my-bucket"
                {| cos_dcslug := "innoida"; cos_billing := "Monthly";
                   cos_size := "10"; cos_name := "my-bucket" |}
                {| cak_accesskey := "k" |}) as (H & _).
    destruct (H [] _ eq_refl) as (_ & Hf & _).
    apply Hf; [reflexivity|discriminate|discriminate].
Defined.

(** [listObjects] answered with an empty [objects] array beside a filled
    [data]. *)
Lemma listObjects_prefers_objects_witness :
  listObjects (remote_body (JObj [("objects", JArr []); ("data", JArr [JStr "x"])]))
    (client_of bearer_config) "innoida" "my-bucket" [] =
    (Returned (JArr []),
     [bare_request GET "/objectstorage/innoida/bucket/my-bucket/objects/"]).
Proof.
  destruct (listObjects_prefers_objects
              (remote_body (JObj [("objects", JArr []); ("data", JArr [JStr "x"])]))
              (client_of bearer_config) "innoida" "my-bucket" [] _ eq_refl)
    as (_ & H & _).
  apply H. reflexivity.
Defined.

(** A link answered as [{ download_url: ... }] and as an empty string. *)
Lemma getSharableUrl_result_witness :
  outcome (getSharableUrl (remote_body (JObj [("download_url", JStr "https://x/y")]))
             sample_stringify (client_of bearer_config)
             "innoida" "my-bucket" "a.txt" "1h") [] = Returned (JStr "https://x/y") /\
  outcome (getSharableUrl (remote_body (JStr EmptyString))
             sample_stringify (client_of bearer_config)
             "innoida" "my-bucket" "a.txt" "1h") [] = Returned (JStr EmptyString).
Proof.
  unfold outcome. split.
  - destruct (getSharableUrl_result
                (remote_body (JObj [("download_url", JStr "https://x/y")]))
                sample_stringify (client_of bearer_config)
                "innoida" "my-bucket" "a.txt" "1h" [] _ eq_refl) as (_ & _ & H & _).
    rewrite H; reflexivity.
  - destruct (getSharableUrl_result (remote_body (JStr EmptyString))
                sample_stringify (client_of bearer_config)
                "innoida" "my-bucket" "a.txt" "1h" [] _ eq_refl) as (H & _).
    rewrite (H EmptyString eq_refl). reflexivity.
Defined.

(** [bucketExists] against a [null] body and against a failure without
    a response. *)
Lemma bucketExists_by_transport_witness :
  outcome (bucketExists (remote_body JNull) (client_of bearer_config)
             "innoida" "my-bucket") [] = Threw ThrownTypeError /\
  outcome (bucketExists remote_down (client_of bearer_config)
             "innoida" "my-bucket") [] = Threw (ThrownUtho (handleError network_error)).
Proof.
  unfold outcome. split.
  - destruct (bucketExists_by_transport (remote_body JNull) (client_of bearer_config)
                "innoida" "my-bucket" []) as (_ & H & _).
    rewrite (H _ eq_refl eq_refl). reflexivity.
  - destruct (bucketExists_by_transport remote_down (client_of bearer_config)
                "innoida" "my-bucket" []) as (_ & _ & _ & _ & H).
    rewrite (H _ eq_refl eq_refl). reflexivity.
Defined.
